(** * Fitness-tracker calculators (homework.py): model and properties

    The module computes distance, mean speed and spent calories of three
    kinds of workout and renders a one-line report.  Python numbers are
    modelled as they are at run time: an [int] is an unbounded integer, a
    [float] is an IEEE 754 binary64 value, and the arithmetic operators
    follow CPython's coercion rules and raise the exceptions CPython raises. *)

From Stdlib Require Import ZArith Floats String Ascii List Lia DecimalString
  DecimalPos.
From stdpp Require Import base option gmap strings.

Set Warnings "-inexact-float".
Local Open Scope Z_scope.
Local Open Scope string_scope.

(** ** Exceptions and results *)

(** The exceptions of Python that the module can raise.  [NotModelled] is
    none of them: it is the outcome of a report template written in a part
    of the format language that is not described here, and nothing is
    stated about such a template. *)
Inductive exn : Type :=
  | ZeroDivisionError
  | OverflowError
  | NotImplementedError
  | TypeError
  | ValueError
  | IndexError
  | AttributeError (name : string)
  | KeyError (msg : string)
  | NotModelled.

Inductive result (A : Type) : Type :=
  | Ok (a : A)
  | Raise (e : exn).
Arguments Ok {A} a.
Arguments Raise {A} e.

#[global] Instance result_ret : MRet result := @Ok.
#[global] Instance result_bind : MBind result := fun A B f r =>
  match r with
  | Ok a => f a
  | Raise e => Raise e
  end.

(** ** Python numbers *)

Inductive num : Type :=
  | PyInt (z : Z)
  | PyFloat (f : float).

(** An integer as an exact, not yet rounded, binary value. *)
Definition exact_of_Z (z : Z) : spec_float :=
  match z with
  | Z0 => S754_zero false
  | Zpos p => S754_finite false p 0
  | Zneg p => S754_finite true p 0
  end.

(** [float(n)] for an [int]: rounded to nearest, ties to even;
    "int too large to convert to float" when the rounded value is not finite. *)
Definition float_of_int (z : Z) : result float :=
  let f := SF2Prim (binary_normalize prec emax z 0 false) in
  if PrimFloat.is_infinity f then Raise OverflowError else Ok f.

(** The conversion of an operand of a mixed or float operation. *)
Definition to_float (n : num) : result float :=
  match n with
  | PyInt z => float_of_int z
  | PyFloat f => Ok f
  end.

(** [a * b] *)
Definition py_mul (a b : num) : result num :=
  match a, b with
  | PyInt x, PyInt y => Ok (PyInt (x * y))
  | _, _ =>
      x ← to_float a; y ← to_float b; Ok (PyFloat (PrimFloat.mul x y))
  end.

(** [a + b] *)
Definition py_add (a b : num) : result num :=
  match a, b with
  | PyInt x, PyInt y => Ok (PyInt (x + y))
  | _, _ =>
      x ← to_float a; y ← to_float b; Ok (PyFloat (PrimFloat.add x y))
  end.

(** [a / b], true division.  Two integers give the correctly rounded
    quotient; otherwise both operands are converted first and the divisor is
    then compared with [0.0]. *)
Definition py_truediv (a b : num) : result num :=
  match a, b with
  | PyInt x, PyInt y =>
      if (y =? 0)%Z then Raise ZeroDivisionError
      else
        let q := SF2Prim (SFdiv prec emax (exact_of_Z x) (exact_of_Z y)) in
        if PrimFloat.is_infinity q then Raise OverflowError
        else Ok (PyFloat q)
  | _, _ =>
      x ← to_float a; y ← to_float b;
      if PrimFloat.is_zero y then Raise ZeroDivisionError
      else Ok (PyFloat (PrimFloat.div x y))
  end.

(** Operators on results, so that a formula reads as in the source. *)
Definition rmul (x y : result num) : result num := a ← x; b ← y; py_mul a b.
Definition radd (x y : result num) : result num := a ← x; b ← y; py_add a b.
Definition rdiv (x y : result num) : result num := a ← x; b ← y; py_truediv a b.

Declare Scope py_scope.
Delimit Scope py_scope with py.
Notation "x * y" := (rmul x y) : py_scope.
Notation "x + y" := (radd x y) : py_scope.
Notation "x / y" := (rdiv x y) : py_scope.

(** A C library for the worked examples: its [pow] is correctly rounded at
    the exponent 2, where the exact power is the product, and it reports no
    error. *)
Definition rounded_pow (x y : float) : float * bool :=
  (if PrimFloat.eqb y 2 then PrimFloat.mul x x else PrimFloat.nan, false).

(** ** Fixed-point rendering, the [.3f] of the report template *)

(** [n / d] rounded to the nearest integer, ties to even ([d] positive). *)
Definition round_half_even (n d : Z) : Z :=
  let q := n / d in
  match (2 * (n mod d) ?= d)%Z with
  | Lt => q
  | Gt => q + 1
  | Eq => if Z.even q then q else q + 1
  end.

Definition digits (n : Z) : string :=
  NilEmpty.string_of_uint (N.to_uint (Z.to_N n)).

Fixpoint zeros (k : nat) : string :=
  match k with
  | O => ""
  | S k' => "0" ++ zeros k'
  end.

Definition pad (p : nat) (s : string) : string :=
  zeros (p - String.length s) ++ s.

(** The decimal text of [n / 10^p] with [p] digits after the point. *)
Definition fixed_digits (p : nat) (n : Z) : string :=
  let scale := 10 ^ Z.of_nat p in
  digits (n / scale) ++
  match p with
  | O => ""
  | _ => "." ++ pad p (digits (n mod scale))
  end.

Definition sign (s : bool) : string := if s then "-" else "".

(** [format(f, '.pf')] of a float: the exact binary value, rounded to [p]
    decimals, ties to even. *)
Definition fixed (p : nat) (f : float) : string :=
  match Prim2SF f with
  | S754_nan => "nan"
  | S754_infinity s => sign s ++ "inf"
  | S754_zero s => sign s ++ fixed_digits p 0
  | S754_finite s m e =>
      let scaled := Zpos m * 10 ^ Z.of_nat p in
      let n := if (0 <=? e)%Z then scaled * 2 ^ e
               else round_half_even scaled (2 ^ (- e)) in
      sign s ++ fixed_digits p n
  end.

(** [format(n, '.pf')] of a number; an [int] is converted to a float first. *)
Definition format_f (p : nat) (n : num) : result string :=
  f ← to_float n; Ok (fixed p f).

(** ** Objects and methods

    A method is a computation over the instance it is called on: it reads
    and may assign attributes of [self], and it returns a value or raises. *)

Definition M (S A : Type) : Type := S -> result A * S.

#[global] Instance M_ret {S} : MRet (M S) := fun A a s => (Ok a, s).
#[global] Instance M_bind {S} : MBind (M S) := fun A B f m s =>
  match m s with
  | (Ok a, s') => f a s'
  | (Raise e, s') => (Raise e, s')
  end.

Definition raise {S A} (e : exn) : M S A := fun s => (Raise e, s).
Definition lift {S A} (r : result A) : M S A := fun s => (r, s).

(** The value a call returns, and the instance it leaves behind. *)
Definition returns {S A} (m : M S A) (s : S) : result A := fst (m s).
Definition leaves {S A} (m : M S A) (s : S) : S := snd (m s).

(** The same operators on computations; operands are evaluated left to
    right, as Python does. *)
Definition mmul {S} (x y : M S num) : M S num := a ← x; b ← y; lift (py_mul a b).
Definition madd {S} (x y : M S num) : M S num := a ← x; b ← y; lift (py_add a b).
Definition mdiv {S} (x y : M S num) : M S num :=
  a ← x; b ← y; lift (py_truediv a b).

Declare Scope meth_scope.
Delimit Scope meth_scope with meth.
Notation "x * y" := (mmul x y) : meth_scope.
Notation "x + y" := (madd x y) : meth_scope.
Notation "x / y" := (mdiv x y) : meth_scope.

(** *** [str.format]

    The part of the format language a report template is made of: literal
    text, the escapes [{{] and [}}], and replacement fields [{name}] and
    [{name:.Nf}] filled from keyword arguments.  A template that uses
    anything else (a conversion [!r], attribute or index access, a nested
    field, another format specification) evaluates to [NotModelled]. *)

(** A keyword argument: the fields of a report are strings and numbers. *)
Inductive value : Type :=
  | VStr (s : string)
  | VNum (n : num).

Definition is_digit (c : ascii) : bool :=
  (48 <=? nat_of_ascii c)%nat && (nat_of_ascii c <=? 57)%nat.

Fixpoint all_digits (s : string) : bool :=
  match s with
  | EmptyString => true
  | String c s' => is_digit c && all_digits s'
  end.

Fixpoint contains (c : ascii) (s : string) : bool :=
  match s with
  | EmptyString => false
  | String c' s' => Ascii.eqb c c' || contains c s'
  end.

(** [str(z)] of an [int], below the length at which recent interpreters
    refuse the conversion. *)
Definition str_int (z : Z) : result string :=
  let text := digits (Z.abs z) in
  if (String.length text <=? 4300)%nat
  then Ok ((if (z <? 0)%Z then "-" else "") ++ text)
  else Raise NotModelled.

(** The precision [N] of a specification [.Nf], read after the point. *)
Fixpoint precision_f (s : string) (acc : nat) (seen : bool) : option nat :=
  match s with
  | EmptyString => None
  | String c rest =>
      if Ascii.eqb c "f" then
        match rest with
        | EmptyString => if seen then Some acc else None
        | _ => None
        end
      else if is_digit c
      then precision_f rest (10 * acc + (nat_of_ascii c - 48)) true
      else None
  end.

Definition fixed_spec (spec : string) : option nat :=
  match spec with
  | String "." rest =>
      if (String.length rest <=? 5)%nat then precision_f rest 0 false
      else None
  | _ => None
  end.

(** [format(v, spec)] *)
Definition format_value (v : value) (spec : string) : result string :=
  match spec with
  | EmptyString =>
      match v with
      | VStr s => Ok s
      | VNum (PyInt z) => str_int z
      | VNum (PyFloat _) => Raise NotModelled
      end
  | _ =>
      match fixed_spec spec, v with
      | Some p, VNum n => format_f p n
      | Some _, VStr _ => Raise ValueError
      | None, _ => Raise NotModelled
      end
  end.

(** A replacement field, split at its first colon into the name and the
    format specification. *)
Fixpoint split_field (field : string) : string * string :=
  match field with
  | EmptyString => (EmptyString, EmptyString)
  | String c rest =>
      if Ascii.eqb c ":" then (EmptyString, rest)
      else let '(name, spec) := split_field rest in (String c name, spec)
  end.

(** The text a replacement field is replaced with.  No positional argument
    is ever passed, so a field without a name or with a number for a name is
    an [IndexError]; a name that is no keyword is a [KeyError]. *)
Definition render (field : string) (kwargs : gmap string value)
  : result string :=
  let '(name, spec) := split_field field in
  if existsb (fun c => contains c name) ["!"; "."; "["; "{"; "}"]%char
     || contains "{" spec || contains "}" spec
  then Raise NotModelled
  else if all_digits name
  then if (String.length name <=? 18)%nat then Raise IndexError
       else Raise NotModelled
  else
    match kwargs !! name with
    | None => Raise (KeyError name)
    | Some v => format_value v spec
    end.

(** The template is read from left to right, [depth] braces deep inside the
    replacement field read so far; fields are rendered as they are met, so
    the first error is the one raised. *)
Fixpoint format_from (depth : nat) (field : string) (template : string)
  (kwargs : gmap string value) : result string :=
  match depth with
  | O =>
      match template with
      | EmptyString => Ok EmptyString
      | String "{" (String "{" rest) =>
          text ← format_from 0 "" rest kwargs; Ok (String "{" text)
      | String "{" EmptyString => Raise ValueError
      | String "{" rest => format_from 1 "" rest kwargs
      | String "}" (String "}" rest) =>
          text ← format_from 0 "" rest kwargs; Ok (String "}" text)
      | String "}" _ => Raise ValueError
      | String c rest =>
          text ← format_from 0 "" rest kwargs; Ok (String c text)
      end
  | S d =>
      match template with
      | EmptyString => Raise ValueError
      | String "{" rest =>
          format_from (S (S d)) (field ++ "{") rest kwargs
      | String "}" rest =>
          match d with
          | O =>
              text ← render field kwargs;
              text' ← format_from 0 "" rest kwargs;
              Ok (text ++ text')
          | S d' => format_from d (field ++ "}") rest kwargs
          end
      | String c rest =>
          format_from (S d) (field ++ String c "") rest kwargs
      end
  end.

(** [template.format( **kwargs)] *)
Definition format (template : string) (kwargs : gmap string value)
  : result string :=
  format_from 0 "" template kwargs.

(** *** InfoMessage *)

Module InfoMessage.

(** The dataclass: [MESSAGE] is its sixth field, with the template as its
    default value. *)
Record t : Type := __init__ {
  training_type : string;
  duration : num;
  distance : num;
  speed : num;
  calories : num;
  MESSAGE : string
}.

Definition MESSAGE_default : string :=
  "Тип тренировки: {training_type}; "
  ++ "Длительность: {duration:.3f} ч.; "
  ++ "Дистанция: {distance:.3f} км; "
  ++ "Ср. скорость: {speed:.3f} км/ч; "
  ++ "Потрачено ккал: {calories:.3f}.".

(** [InfoMessage(training_type, duration, distance, speed, calories)]: the
    call with five arguments, which leaves [MESSAGE] at its default. *)
Definition mk (training_type : string) (duration distance speed calories : num)
  : t :=
  __init__ training_type duration distance speed calories MESSAGE_default.

(** [asdict(self)]: every field by its name, [MESSAGE] included. *)
Definition asdict (self : t) : gmap string value :=
  <["training_type" := VStr (training_type self)]>
  (<["duration" := VNum (duration self)]>
  (<["distance" := VNum (distance self)]>
  (<["speed" := VNum (speed self)]>
  (<["calories" := VNum (calories self)]>
  (<["MESSAGE" := VStr (MESSAGE self)]> ∅))))).

(** [self.MESSAGE.format( **asdict(self))] *)
Definition get_message : M t string :=
  fun self => (format (MESSAGE self) (asdict self), self).

End InfoMessage.

(** ** The power operator

    [float ** float] is computed by the C library: CPython sorts out the
    special cases itself and calls [pow] for the rest.  [pow] is not
    correctly rounded in every library, so its last bit depends on the
    platform; the library function is therefore a parameter of everything
    below.  It gives the value and whether it reported a range error
    ([errno] set to [ERANGE]); with a positive finite base and the exponent
    2 the C standard allows it no other error. *)

Section Libm.
Variable libm_pow : float -> float -> float * bool.

(** [float_pow] of CPython at the exponent [2.0]: [nan], the infinities,
    zero and one are answered without [pow]; a negative base is replaced by
    its absolute value, the exponent being even.  After [pow], a range error
    or an infinite result is an [OverflowError], except that a range error
    with the result zero is an underflow and returns the zero. *)
Definition float_pow2 (iv : float) : result float :=
  if PrimFloat.is_nan iv then Ok iv
  else if PrimFloat.is_infinity iv then Ok (PrimFloat.abs iv)
  else if PrimFloat.is_zero iv then Ok 0%float
  else
    let iv := if PrimFloat.ltb iv 0 then PrimFloat.opp iv else iv in
    if PrimFloat.eqb iv 1 then Ok 1%float
    else
      let '(ix, erange) := libm_pow iv 2 in
      if erange then
        if PrimFloat.is_zero ix then Ok ix else Raise OverflowError
      else
        if PrimFloat.is_infinity ix then Raise OverflowError else Ok ix.

(** [a ** 2]: an [int] is squared exactly, a float goes through
    [float_pow] with the exponent converted to [2.0]. *)
Definition py_pow2 (a : num) : result num :=
  match a with
  | PyInt x => Ok (PyInt (x * x))
  | PyFloat f => r ← float_pow2 f; Ok (PyFloat r)
  end.

Definition rpow2 (x : result num) : result num := a ← x; py_pow2 a.
Definition mpow2 {S} (x : M S num) : M S num := a ← x; lift (py_pow2 a).

(** *** The Training hierarchy *)

Inductive cls : Type := Training | Running | SportsWalking | Swimming.

#[global] Instance cls_eq_dec : EqDecision cls.
Proof. solve_decision. Defined.

(** [cls.__name__] *)
Definition __name__ (c : cls) : string :=
  match c with
  | Training => "Training"
  | Running => "Running"
  | SportsWalking => "SportsWalking"
  | Swimming => "Swimming"
  end.

(** An instance: its class and its attributes, [None] while unassigned. *)
Record object : Type := mkobject {
  class_of : cls;
  action : option num;
  duration : option num;
  weight : option num;
  height : option num;
  length_pool : option num;
  count_pool : option num
}.

Abbreviation method := (M object).

Definition blank (c : cls) : object := mkobject c None None None None None None.

(** [self.name], an instance attribute. *)
Definition getattr (name : string) (field : object -> option num) : method num :=
  fun self =>
    match field self with
    | Some v => (Ok v, self)
    | None => (Raise (AttributeError name), self)
    end.

(** [self.name = v] *)
Definition setattr (assign : num -> object -> object) (v : num) : method unit :=
  fun self => (Ok tt, assign v self).

Definition set_action (v : num) (o : object) : object :=
  mkobject (class_of o) (Some v) (duration o) (weight o) (height o)
           (length_pool o) (count_pool o).
Definition set_duration (v : num) (o : object) : object :=
  mkobject (class_of o) (action o) (Some v) (weight o) (height o)
           (length_pool o) (count_pool o).
Definition set_weight (v : num) (o : object) : object :=
  mkobject (class_of o) (action o) (duration o) (Some v) (height o)
           (length_pool o) (count_pool o).
Definition set_height (v : num) (o : object) : object :=
  mkobject (class_of o) (action o) (duration o) (weight o) (Some v)
           (length_pool o) (count_pool o).
Definition set_length_pool (v : num) (o : object) : object :=
  mkobject (class_of o) (action o) (duration o) (weight o) (height o)
           (Some v) (count_pool o).
Definition set_count_pool (v : num) (o : object) : object :=
  mkobject (class_of o) (action o) (duration o) (weight o) (height o)
           (length_pool o) (Some v).

Definition self_action : method num := getattr "action" action.
Definition self_duration : method num := getattr "duration" duration.
Definition self_weight : method num := getattr "weight" weight.
Definition self_height : method num := getattr "height" height.
Definition self_length_pool : method num := getattr "length_pool" length_pool.
Definition self_count_pool : method num := getattr "count_pool" count_pool.

(** Class attributes.  [LEN_STEP] is the only one a subclass overrides. *)
Definition LEN_STEP (c : cls) : num :=
  match c with
  | Swimming => PyFloat 1.38
  | _ => PyFloat 0.65
  end.
Definition M_IN_KM : num := PyInt 1000.
Definition MIN_IN_H : num := PyInt 60.
Definition KMH_IN_MSEC : num := PyFloat 0.278.
Definition CM_IN_M : num := PyInt 100.
Definition COEF_1 : num := PyInt 18.
Definition COEF_2 : num := PyFloat 1.79.
Definition CALORIES_WEIGHT_MULTIPLIER : num := PyFloat 0.035.
Definition CALORIES_SPEED_HEIGHT_MULTIPLIER : num := PyFloat 0.029.
Definition CALORIES_COTF_5 : num := PyFloat 1.1.
Definition CALORIES_COTF_6 : num := PyInt 2.

(** [self.LEN_STEP], looked up in the class of the instance. *)
Definition self_LEN_STEP : method num :=
  fun self => (Ok (LEN_STEP (class_of self)), self).

(** A class attribute that no class overrides. *)
Definition const (v : num) : method num := mret v.

(** [type(self).__name__] *)
Definition type_name : method string :=
  fun self => (Ok (__name__ (class_of self)), self).

(** *** Methods

    [Training_get_distance] is [Training.get_distance] and so on; the
    unprefixed [get_distance], [get_mean_speed] and [get_spent_calories]
    are what a call [self.m()] runs: the method of the class of [self], or
    the one it inherits. *)

Definition Training___init__ (action duration weight : num) : method unit :=
  _ ← setattr set_action action;
  _ ← setattr set_duration duration;
  setattr set_weight weight.

Definition Training_get_distance : method num :=
  (self_action * self_LEN_STEP / const M_IN_KM)%meth.

(** [self.get_distance()]: no class overrides it. *)
Definition get_distance : method num := Training_get_distance.

Definition Training_get_mean_speed : method num :=
  (get_distance / self_duration)%meth.

Definition Swimming_get_mean_speed : method num :=
  (self_length_pool * self_count_pool / const M_IN_KM
   / self_duration)%meth.

(** [self.get_mean_speed()] *)
Definition get_mean_speed : method num :=
  fun self =>
    match class_of self with
    | Swimming => Swimming_get_mean_speed self
    | _ => Training_get_mean_speed self
    end.

Definition Training_get_spent_calories : method num :=
  raise NotImplementedError.

Definition Running_get_spent_calories : method num :=
  ((const COEF_1 * get_mean_speed + const COEF_2)
   * self_weight
   / const M_IN_KM
   * (self_duration * const MIN_IN_H))%meth.

Definition SportsWalking___init__ (action duration weight height : num)
  : method unit :=
  _ ← Training___init__ action duration weight;
  setattr set_height height.

Definition SportsWalking_get_spent_calories : method num :=
  ((const CALORIES_WEIGHT_MULTIPLIER * self_weight
    + (mpow2 (get_mean_speed * const KMH_IN_MSEC)
       / (self_height / const CM_IN_M))
      * const CALORIES_SPEED_HEIGHT_MULTIPLIER
      * self_weight)
   * (self_duration * const MIN_IN_H))%meth.

Definition Swimming___init__
  (action duration weight length_pool count_pool : num) : method unit :=
  _ ← Training___init__ action duration weight;
  _ ← setattr set_length_pool length_pool;
  setattr set_count_pool count_pool.

Definition Swimming_get_spent_calories : method num :=
  ((get_mean_speed + const CALORIES_COTF_5)
   * const CALORIES_COTF_6 * self_weight
   * self_duration)%meth.

(** [self.get_spent_calories()] *)
Definition get_spent_calories : method num :=
  fun self =>
    match class_of self with
    | Training => Training_get_spent_calories self
    | Running => Running_get_spent_calories self
    | SportsWalking => SportsWalking_get_spent_calories self
    | Swimming => Swimming_get_spent_calories self
    end.

(** [self.show_training_info()]: the arguments of [InfoMessage] are
    evaluated in order. *)
Definition show_training_info : method InfoMessage.t :=
  name ← type_name;
  duration ← self_duration;
  distance ← get_distance;
  speed ← get_mean_speed;
  calories ← get_spent_calories;
  mret (InfoMessage.mk name duration distance speed calories).

(** [c( *args)]: a fresh instance of [c], initialised by the [__init__] the
    class has or inherits; a wrong number of arguments is a [TypeError]. *)
Definition new (c : cls) (args : list num) : result object :=
  let init (m : method unit) : result object :=
    match m (blank c) with
    | (Ok _, self) => Ok self
    | (Raise e, _) => Raise e
    end in
  match c, args with
  | Training, [a; d; w] | Running, [a; d; w] =>
      init (Training___init__ a d w)
  | SportsWalking, [a; d; w; h] =>
      init (SportsWalking___init__ a d w h)
  | Swimming, [a; d; w; l; n] =>
      init (Swimming___init__ a d w l n)
  | _, _ => Raise TypeError
  end.

(** ** The factory and the entry flow *)

Definition data_of_training : gmap string cls :=
  <["SWM" := Swimming]> (<["RUN" := Running]> (<["WLK" := SportsWalking]> ∅)).

Definition read_package (workout_type : string) (data : list num)
  : result object :=
  match data_of_training !! workout_type with
  | None => Raise (KeyError ("Не верный тип тренировки - " ++ workout_type))
  | Some c => new c data
  end.

(** [show_training_info] followed by [get_message], as [main] runs them. *)
Definition report : method string :=
  info ← show_training_info;
  lift (returns InfoMessage.get_message info).

(** [main(training)]: the line it prints. *)
Definition main (training : object) : result string :=
  returns report training.

Definition packages : list (string * list num) :=
  [ ("SWM", [PyInt 720; PyInt 1; PyInt 80; PyInt 25; PyInt 40]);
    ("RUN", [PyInt 15000; PyInt 1; PyInt 75]);
    ("WLK", [PyInt 9000; PyInt 1; PyInt 75; PyInt 180]) ].

(** The three lines the script prints. *)
Definition script_output : list (result string) :=
  map (fun '(workout_type, data) =>
         training ← read_package workout_type data; main training)
      packages.

(** ** Vocabulary of the properties *)

(** [c( *args).m()]: build an instance, then call a method on it. *)
Definition call {A} (c : cls) (args : list num) (m : method A) : result A :=
  self ← new c args; returns m self.

(** A computation that leaves the instance as it was. *)
Definition readonly {S A} (m : M S A) : Prop := forall s, leaves m s = s.

(** [self.name] as a value: the attribute, or [AttributeError]. *)
Definition attribute (name : string) (v : option num) : result num :=
  match v with
  | Some x => Ok x
  | None => Raise (AttributeError name)
  end.

(** Two floats that agree to the two decimals a figure is quoted with. *)
Definition approx (x y : float) : bool :=
  PrimFloat.leb (PrimFloat.abs (PrimFloat.sub x y)) 0.005%float.

(** A number that has a float value: any float, and an [int] that is not
    too large to convert. *)
Definition convertible (n : num) : Prop := exists f, to_float n = Ok f.

(** [n > 0] and [n == 0] *)
Definition gt0 (n : num) : Prop :=
  match n with
  | PyInt z => 0 < z
  | PyFloat f => PrimFloat.ltb 0 f = true
  end.
Definition eq0 (n : num) : Prop :=
  match n with
  | PyInt z => z = 0
  | PyFloat f => PrimFloat.is_zero f = true
  end.

#[global] Instance convertible_dec n : Decision (convertible n).
Proof.
  unfold convertible. destruct (to_float n) as [f|e].
  - left. exists f. reflexivity.
  - right. intros [f H]. discriminate H.
Defined.

#[global] Instance gt0_dec n : Decision (gt0 n).
Proof. destruct n; cbn [gt0]; apply _. Defined.

#[global] Instance eq0_dec n : Decision (eq0 n).
Proof. destruct n; cbn [eq0]; apply _. Defined.

(** The readings the constructor of a class takes, in order. *)
Definition readings (c : cls) (a d w h l n : num) : list num :=
  match c with
  | Training | Running => [a; d; w]
  | SportsWalking => [a; d; w; h]
  | Swimming => [a; d; w; l; n]
  end.

(** The distance the mean speed of a class divides by the duration. *)
Definition divided_distance (c : cls) (a d w h l n : num) : result num :=
  match c with
  | Swimming => (Ok l * Ok n / Ok M_IN_KM)%py
  | _ => call c (readings c a d w h l n) get_distance
  end.

(** The number of readings the constructor of a class takes. *)
Definition arity (c : cls) : nat :=
  match c with
  | Training | Running => 3%nat
  | SportsWalking => 4%nat
  | Swimming => 5%nat
  end.

(** The values of the attributes an instance has, in the order the
    constructors assign them. *)
Definition attributes (self : object) : list num :=
  omap id [action self; duration self; weight self; height self;
           length_pool self; count_pool self].

Definition is_float (v : num) : bool :=
  match v with
  | PyFloat _ => true
  | PyInt _ => false
  end.

(** The two errors arithmetic raises. *)
Definition arithmetic (e : exn) : bool :=
  match e with
  | ZeroDivisionError | OverflowError => true
  | _ => false
  end.

Definition overflow (e : exn) : bool :=
  match e with
  | OverflowError => true
  | _ => false
  end.

(** A result that, if it is an error, is one of the errors [P]. *)
Definition fails_within {A} (P : exn -> bool) (r : result A) : bool :=
  match r with
  | Ok _ => true
  | Raise e => P e
  end.

(** A result that, if it is a value, is a float. *)
Definition float_result (r : result num) : bool :=
  match r with
  | Ok v => is_float v
  | Raise _ => true
  end.

(** [0 <= f]: a float that is neither negative nor a NaN. *)
Definition nonneg (f : float) : bool := PrimFloat.leb 0 f.

(** [n >= 0] *)
Definition ge0 (n : num) : bool :=
  match n with
  | PyInt z => (0 <=? z)%Z
  | PyFloat f => nonneg f
  end.

(** A number that is not an infinity or a NaN. *)
Definition finite (n : num) : bool :=
  match n with
  | PyInt _ => true
  | PyFloat f => PrimFloat.is_finite f
  end.

(** A result that, if it is a value, is not negative. *)
Definition nonneg_result (r : result num) : bool :=
  match r with
  | Ok v => ge0 v
  | Raise _ => true
  end.

(** The sign test on the specification of a float. *)
Definition sf_nonneg (x : spec_float) : bool :=
  match x with
  | S754_zero _ => true
  | S754_infinity s | S754_finite s _ _ => negb s
  | S754_nan => false
  end.

(** The shape [.3f] gives a finite number: an optional minus sign, at least
    one digit, a point and exactly three digits. *)
Definition three_decimals (s : string) : Prop :=
  exists (minus : bool) (whole fraction : string),
    s = sign minus ++ whole ++ "." ++ fraction
    /\ whole <> ""
    /\ all_digits whole = true
    /\ all_digits fraction = true
    /\ String.length fraction = 3%nat.

(** * Properties *)

(** ** Computations that leave the instance as it was *)

Section ReadOnly.
Context {S : Type}.

Lemma readonly_ret {A} (a : A) : readonly (mret a : M S A).
Proof. intros s; reflexivity. Qed.

Lemma readonly_lift {A} (r : result A) : readonly (lift r : M S A).
Proof. intros s; reflexivity. Qed.

Lemma readonly_raise {A} (e : exn) : readonly (raise e : M S A).
Proof. intros s; reflexivity. Qed.

Lemma readonly_bind {A B} (m : M S A) (f : A -> M S B) :
  readonly m -> (forall a, readonly (f a)) -> readonly (m ≫= f).
Proof.
  intros Hm Hf s. unfold leaves, mbind, M_bind.
  specialize (Hm s). unfold leaves in Hm.
  destruct (m s) as [[a|e] s']; simpl in *; subst s'.
  - apply Hf.
  - reflexivity.
Qed.

(** A read-only computation can be run for its value alone. *)
Lemma returns_bind {A B} (m : M S A) (f : A -> M S B) (s : S) :
  readonly m ->
  returns (m ≫= f) s = (returns m s ≫= fun a => returns (f a) s).
Proof.
  intros Hm. unfold returns, mbind, M_bind, result_bind.
  specialize (Hm s). unfold leaves in Hm.
  destruct (m s) as [[a|e] s']; simpl in *; subst s'; reflexivity.
Qed.

Lemma returns_lift {A} (r : result A) (s : S) : returns (lift r) s = r.
Proof. reflexivity. Qed.

Lemma returns_ret {A} (a : A) (s : S) : returns (mret a : M S A) s = Ok a.
Proof. reflexivity. Qed.

Lemma readonly_mmul (x y : M S num) :
  readonly x -> readonly y -> readonly (x * y)%meth.
Proof.
  intros; unfold mmul; repeat (apply readonly_bind; trivial; intros).
  apply readonly_lift.
Qed.

Lemma readonly_madd (x y : M S num) :
  readonly x -> readonly y -> readonly (x + y)%meth.
Proof.
  intros; unfold madd; repeat (apply readonly_bind; trivial; intros).
  apply readonly_lift.
Qed.

Lemma readonly_mdiv (x y : M S num) :
  readonly x -> readonly y -> readonly (x / y)%meth.
Proof.
  intros; unfold mdiv; repeat (apply readonly_bind; trivial; intros).
  apply readonly_lift.
Qed.

Lemma readonly_mpow2 (x : M S num) : readonly x -> readonly (mpow2 x).
Proof.
  intros; unfold mpow2; apply readonly_bind; trivial; intros.
  apply readonly_lift.
Qed.

Lemma returns_mmul (x y : M S num) (s : S) :
  readonly x -> readonly y ->
  returns (x * y)%meth s = (returns x s * returns y s)%py.
Proof.
  intros Hx Hy. unfold mmul, rmul. rewrite returns_bind by trivial.
  destruct (returns x s); simpl; [|reflexivity].
  rewrite returns_bind by trivial.
  destruct (returns y s); reflexivity.
Qed.

Lemma returns_madd (x y : M S num) (s : S) :
  readonly x -> readonly y ->
  returns (x + y)%meth s = (returns x s + returns y s)%py.
Proof.
  intros Hx Hy. unfold madd, radd. rewrite returns_bind by trivial.
  destruct (returns x s); simpl; [|reflexivity].
  rewrite returns_bind by trivial.
  destruct (returns y s); reflexivity.
Qed.

Lemma returns_mdiv (x y : M S num) (s : S) :
  readonly x -> readonly y ->
  returns (x / y)%meth s = (returns x s / returns y s)%py.
Proof.
  intros Hx Hy. unfold mdiv, rdiv. rewrite returns_bind by trivial.
  destruct (returns x s); simpl; [|reflexivity].
  rewrite returns_bind by trivial.
  destruct (returns y s); reflexivity.
Qed.

Lemma returns_mpow2 (x : M S num) (s : S) :
  readonly x -> returns (mpow2 x) s = rpow2 (returns x s).
Proof.
  intros Hx. unfold mpow2, rpow2. rewrite returns_bind by trivial.
  destruct (returns x s); reflexivity.
Qed.

End ReadOnly.

Create HintDb readonly.
#[local] Hint Resolve readonly_ret readonly_lift readonly_raise
  readonly_mmul readonly_madd readonly_mdiv readonly_mpow2 : readonly.

Lemma readonly_getattr name field : readonly (getattr name field).
Proof. intros s; unfold leaves, getattr; destruct (field s); reflexivity. Qed.

Lemma readonly_const v : readonly (const v).
Proof. apply readonly_ret. Qed.

Lemma readonly_self_LEN_STEP : readonly self_LEN_STEP.
Proof. intros s; reflexivity. Qed.

Lemma readonly_type_name : readonly type_name.
Proof. intros s; reflexivity. Qed.

#[local] Hint Resolve readonly_getattr readonly_const readonly_self_LEN_STEP
  readonly_type_name : readonly.

Lemma readonly_self_action : readonly self_action.
Proof. apply readonly_getattr. Qed.
Lemma readonly_self_duration : readonly self_duration.
Proof. apply readonly_getattr. Qed.
Lemma readonly_self_weight : readonly self_weight.
Proof. apply readonly_getattr. Qed.
Lemma readonly_self_height : readonly self_height.
Proof. apply readonly_getattr. Qed.
Lemma readonly_self_length_pool : readonly self_length_pool.
Proof. apply readonly_getattr. Qed.
Lemma readonly_self_count_pool : readonly self_count_pool.
Proof. apply readonly_getattr. Qed.

#[local] Hint Resolve readonly_self_action readonly_self_duration
  readonly_self_weight readonly_self_height readonly_self_length_pool
  readonly_self_count_pool : readonly.

Lemma readonly_get_distance : readonly get_distance.
Proof. unfold get_distance, Training_get_distance; auto 10 with readonly. Qed.
#[local] Hint Resolve readonly_get_distance : readonly.

Lemma readonly_Training_get_mean_speed : readonly Training_get_mean_speed.
Proof. unfold Training_get_mean_speed; auto 10 with readonly. Qed.

Lemma readonly_Swimming_get_mean_speed : readonly Swimming_get_mean_speed.
Proof. unfold Swimming_get_mean_speed; auto 10 with readonly. Qed.

Lemma readonly_get_mean_speed : readonly get_mean_speed.
Proof.
  intros s. unfold leaves, get_mean_speed.
  destruct (class_of s);
    first [apply readonly_Swimming_get_mean_speed
          | apply readonly_Training_get_mean_speed].
Qed.
#[local] Hint Resolve readonly_get_mean_speed : readonly.

Lemma readonly_Running_get_spent_calories :
  readonly Running_get_spent_calories.
Proof. unfold Running_get_spent_calories; auto 20 with readonly. Qed.

Lemma readonly_SportsWalking_get_spent_calories :
  readonly SportsWalking_get_spent_calories.
Proof. unfold SportsWalking_get_spent_calories; auto 20 with readonly. Qed.

Lemma readonly_Swimming_get_spent_calories :
  readonly Swimming_get_spent_calories.
Proof. unfold Swimming_get_spent_calories; auto 20 with readonly. Qed.

Lemma readonly_get_spent_calories : readonly get_spent_calories.
Proof.
  intros s. unfold leaves, get_spent_calories.
  destruct (class_of s).
  - reflexivity.
  - apply readonly_Running_get_spent_calories.
  - apply readonly_SportsWalking_get_spent_calories.
  - apply readonly_Swimming_get_spent_calories.
Qed.
#[local] Hint Resolve readonly_get_spent_calories : readonly.

Lemma readonly_show_training_info : readonly show_training_info.
Proof.
  unfold show_training_info.
  repeat (apply readonly_bind; [auto with readonly | intros]).
  apply readonly_ret.
Qed.

Lemma readonly_get_message : readonly InfoMessage.get_message.
Proof. intros s; reflexivity. Qed.

(** ** The report template *)

(** What the default template makes of its keyword arguments. *)
Lemma format_MESSAGE_default (kwargs : gmap string value)
  (name : string) (d s v c : num) :
  kwargs !! "training_type" = Some (VStr name) ->
  kwargs !! "duration" = Some (VNum d) ->
  kwargs !! "distance" = Some (VNum s) ->
  kwargs !! "speed" = Some (VNum v) ->
  kwargs !! "calories" = Some (VNum c) ->
  format InfoMessage.MESSAGE_default kwargs
  = (dur ← format_f 3 d;
     dist ← format_f 3 s;
     spd ← format_f 3 v;
     cal ← format_f 3 c;
     Ok ("Тип тренировки: " ++ name ++ "; "
         ++ "Длительность: " ++ dur ++ " ч.; "
         ++ "Дистанция: " ++ dist ++ " км; "
         ++ "Ср. скорость: " ++ spd ++ " км/ч; "
         ++ "Потрачено ккал: " ++ cal ++ ".")).
Proof.
  intros H1 H2 H3 H4 H5.
  cbv -[format_f lookup].
  cbv -[lookup] in H1, H2, H3, H4, H5.
  rewrite H1, H2, H3, H4, H5.
  cbv -[format_f].
  destruct (format_f 3 d); [|reflexivity].
  destruct (format_f 3 s); [|reflexivity].
  destruct (format_f 3 v); [|reflexivity].
  destruct (format_f 3 c); [|reflexivity].
  reflexivity.
Qed.

Lemma asdict_lookup (self : InfoMessage.t) :
  InfoMessage.asdict self !! "training_type"
    = Some (VStr (InfoMessage.training_type self))
  /\ InfoMessage.asdict self !! "duration"
    = Some (VNum (InfoMessage.duration self))
  /\ InfoMessage.asdict self !! "distance"
    = Some (VNum (InfoMessage.distance self))
  /\ InfoMessage.asdict self !! "speed"
    = Some (VNum (InfoMessage.speed self))
  /\ InfoMessage.asdict self !! "calories"
    = Some (VNum (InfoMessage.calories self))
  /\ InfoMessage.asdict self !! "MESSAGE"
    = Some (VStr (InfoMessage.MESSAGE self)).
Proof. destruct self. split_and!; vm_compute; reflexivity. Qed.

(** With the default template [get_message] formats the four numbers in
    order and puts them between the labels. *)
Lemma get_message_default (self : InfoMessage.t) :
  InfoMessage.MESSAGE self = InfoMessage.MESSAGE_default ->
  returns InfoMessage.get_message self
  = (dur ← format_f 3 (InfoMessage.duration self);
     dist ← format_f 3 (InfoMessage.distance self);
     spd ← format_f 3 (InfoMessage.speed self);
     cal ← format_f 3 (InfoMessage.calories self);
     Ok ("Тип тренировки: " ++ InfoMessage.training_type self ++ "; "
         ++ "Длительность: " ++ dur ++ " ч.; "
         ++ "Дистанция: " ++ dist ++ " км; "
         ++ "Ср. скорость: " ++ spd ++ " км/ч; "
         ++ "Потрачено ккал: " ++ cal ++ ".")).
Proof.
  intros HM. unfold returns, InfoMessage.get_message. cbn [fst]. rewrite HM.
  destruct (asdict_lookup self) as (H1 & H2 & H3 & H4 & H5 & _).
  apply format_MESSAGE_default; assumption.
Qed.

(** ** What the methods return, as formulas over the attributes *)

Lemma returns_getattr name field self :
  returns (getattr name field) self = attribute name (field self).
Proof. unfold returns, getattr; destruct (field self); reflexivity. Qed.

Ltac formula :=
  repeat first
    [ rewrite returns_mmul by auto 20 with readonly
    | rewrite returns_madd by auto 20 with readonly
    | rewrite returns_mdiv by auto 20 with readonly
    | rewrite returns_mpow2 by auto 20 with readonly ].

Lemma get_distance_eq self :
  returns get_distance self
  = (attribute "action" (action self) * Ok (LEN_STEP (class_of self))
     / Ok M_IN_KM)%py.
Proof.
  unfold get_distance, Training_get_distance. formula.
  unfold self_action. rewrite returns_getattr. reflexivity.
Qed.

Lemma Training_get_mean_speed_eq self :
  returns Training_get_mean_speed self
  = (returns get_distance self / attribute "duration" (duration self))%py.
Proof.
  unfold Training_get_mean_speed. formula.
  unfold self_duration. rewrite returns_getattr. reflexivity.
Qed.

Lemma Swimming_get_mean_speed_eq self :
  returns Swimming_get_mean_speed self
  = (attribute "length_pool" (length_pool self)
     * attribute "count_pool" (count_pool self)
     / Ok M_IN_KM
     / attribute "duration" (duration self))%py.
Proof.
  unfold Swimming_get_mean_speed. formula.
  unfold self_length_pool, self_count_pool, self_duration.
  rewrite !returns_getattr. reflexivity.
Qed.

Lemma Running_get_spent_calories_eq self :
  returns Running_get_spent_calories self
  = ((Ok COEF_1 * returns get_mean_speed self + Ok COEF_2)
     * attribute "weight" (weight self)
     / Ok M_IN_KM
     * (attribute "duration" (duration self) * Ok MIN_IN_H))%py.
Proof.
  unfold Running_get_spent_calories. formula.
  unfold self_weight, self_duration.
  rewrite !returns_getattr. reflexivity.
Qed.

Lemma SportsWalking_get_spent_calories_eq self :
  returns SportsWalking_get_spent_calories self
  = ((Ok CALORIES_WEIGHT_MULTIPLIER * attribute "weight" (weight self)
      + (rpow2 (returns get_mean_speed self * Ok KMH_IN_MSEC)
         / (attribute "height" (height self) / Ok CM_IN_M))
        * Ok CALORIES_SPEED_HEIGHT_MULTIPLIER
        * attribute "weight" (weight self))
     * (attribute "duration" (duration self) * Ok MIN_IN_H))%py.
Proof.
  unfold SportsWalking_get_spent_calories. formula.
  unfold self_weight, self_duration, self_height.
  rewrite !returns_getattr. reflexivity.
Qed.

Lemma Swimming_get_spent_calories_eq self :
  returns Swimming_get_spent_calories self
  = ((returns get_mean_speed self + Ok CALORIES_COTF_5)
     * Ok CALORIES_COTF_6 * attribute "weight" (weight self)
     * attribute "duration" (duration self))%py.
Proof.
  unfold Swimming_get_spent_calories. formula.
  unfold self_weight, self_duration.
  rewrite !returns_getattr. reflexivity.
Qed.

(** ** Construction *)

Lemma new_Training a d w :
  new Training [a; d; w]
  = Ok (mkobject Training (Some a) (Some d) (Some w) None None None).
Proof. reflexivity. Qed.

Lemma new_Running a d w :
  new Running [a; d; w]
  = Ok (mkobject Running (Some a) (Some d) (Some w) None None None).
Proof. reflexivity. Qed.

Lemma new_SportsWalking a d w h :
  new SportsWalking [a; d; w; h]
  = Ok (mkobject SportsWalking (Some a) (Some d) (Some w) (Some h) None None).
Proof. reflexivity. Qed.

Lemma new_Swimming a d w l n :
  new Swimming [a; d; w; l; n]
  = Ok (mkobject Swimming (Some a) (Some d) (Some w) None (Some l) (Some n)).
Proof. reflexivity. Qed.

(** ** Running *)

(** C1, as the code has it.  [Running(15000, 1, 75)]: [get_distance()] and
    [get_mean_speed()] return 9.75, and [get_spent_calories()] returns
    (18 * 9.75 + 1.79) * 75 / 1000 * 60, which is 797.805. *)
Theorem running_example :
  let run {A} (m : method A) :=
    call Running [PyInt 15000; PyInt 1; PyInt 75] m in
  run get_distance = Ok (PyFloat 9.75)
  /\ run get_mean_speed = Ok (PyFloat 9.75)
  /\ run get_spent_calories
     = ((Ok (PyInt 18) * Ok (PyFloat 9.75) + Ok (PyFloat 1.79))
        * Ok (PyInt 75) / Ok (PyInt 1000) * Ok (PyInt 60))%py
  /\ run get_spent_calories = Ok (PyFloat 797.805).
Proof. vm_compute. repeat split; reflexivity. Qed.

(** ** Distance and mean speed *)

Lemma call_eq {A} c args self (m : method A) :
  new c args = Ok self -> call c args m = returns m self.
Proof. intros H; unfold call; rewrite H; reflexivity. Qed.

Lemma get_mean_speed_Swimming self :
  class_of self = Swimming ->
  returns get_mean_speed self = returns Swimming_get_mean_speed self.
Proof. intros H; unfold returns, get_mean_speed; rewrite H; reflexivity. Qed.

Lemma get_mean_speed_inherited self :
  class_of self <> Swimming ->
  returns get_mean_speed self = returns Training_get_mean_speed self.
Proof.
  intros H; unfold returns, get_mean_speed.
  destruct (class_of self); congruence.
Qed.

(** C7.  [get_distance()] is [action * 0.65 / 1000] for the base class,
    running and walking, and [action * 1.38 / 1000] for swimming; walking
    9000 steps gives 5.85 km, and 5.85 km/h over one hour. *)
Theorem get_distance_formula (a d w h l n : num) :
  call Training [a; d; w] get_distance
    = (Ok a * Ok (PyFloat 0.65) / Ok (PyInt 1000))%py
  /\ call Running [a; d; w] get_distance
    = (Ok a * Ok (PyFloat 0.65) / Ok (PyInt 1000))%py
  /\ call SportsWalking [a; d; w; h] get_distance
    = (Ok a * Ok (PyFloat 0.65) / Ok (PyInt 1000))%py
  /\ call Swimming [a; d; w; l; n] get_distance
    = (Ok a * Ok (PyFloat 1.38) / Ok (PyInt 1000))%py
  /\ call SportsWalking [PyInt 9000; d; w; h] get_distance
    = Ok (PyFloat 5.85)
  /\ call SportsWalking [PyInt 9000; PyInt 1; w; h] get_mean_speed
    = Ok (PyFloat 5.85).
Proof.
  split_and!.
  1-4: erewrite call_eq by reflexivity; rewrite get_distance_eq; reflexivity.
  - erewrite call_eq by reflexivity. rewrite get_distance_eq.
    vm_compute. reflexivity.
  - erewrite call_eq by reflexivity.
    rewrite get_mean_speed_inherited by discriminate.
    rewrite Training_get_mean_speed_eq, get_distance_eq.
    vm_compute. reflexivity.
Qed.

(** C2, as the code has it.  [get_mean_speed()] is [get_distance()]
    divided by the duration for the base class, running and walking, but
    not for swimming: there it is [length_pool * count_pool / 1000] divided
    by the duration, a distance that [get_distance()] does not return.
    The division is the one of floats: with a distance [x] and a duration
    whose float [fd] is not zero the mean speed is [x / fd], so 15000 steps
    run in 2 hours make 9.75 km and 4.875 km/h, and the script's swimming
    package makes 1.0 km/h while its [get_distance()] is 0.9936 km. *)
Theorem mean_speed_is_distance_over_duration (a d w h l n : num) :
  call Training [a; d; w] get_mean_speed
    = (call Training [a; d; w] get_distance / Ok d)%py
  /\ call Running [a; d; w] get_mean_speed
    = (call Running [a; d; w] get_distance / Ok d)%py
  /\ call SportsWalking [a; d; w; h] get_mean_speed
    = (call SportsWalking [a; d; w; h] get_distance / Ok d)%py
  /\ call Swimming [a; d; w; l; n] get_mean_speed
    = ((Ok l * Ok n / Ok M_IN_KM) / Ok d)%py
  /\ (forall (c : cls) (x fd : float),
        divided_distance c a d w h l n = Ok (PyFloat x) ->
        to_float d = Ok fd -> PrimFloat.is_zero fd = false ->
        call c (readings c a d w h l n) get_mean_speed
        = Ok (PyFloat (PrimFloat.div x fd)))
  /\ call Running [PyInt 15000; PyInt 2; PyInt 75] get_distance
    = Ok (PyFloat 9.75)
  /\ call Running [PyInt 15000; PyInt 2; PyInt 75] get_mean_speed
    = Ok (PyFloat 4.875)
  /\ call Swimming [PyInt 720; PyInt 1; PyInt 80; PyInt 25; PyInt 40]
       get_distance
    = Ok (PyFloat 0.99359999999999993)
  /\ call Swimming [PyInt 720; PyInt 1; PyInt 80; PyInt 25; PyInt 40]
       get_mean_speed
    = Ok (PyFloat 1).
Proof.
  split_and!.
  1-3: erewrite !call_eq by reflexivity;
       rewrite get_mean_speed_inherited by discriminate;
       rewrite Training_get_mean_speed_eq; reflexivity.
  - erewrite call_eq by reflexivity.
    rewrite get_mean_speed_Swimming by reflexivity.
    rewrite Swimming_get_mean_speed_eq. reflexivity.
  - intros c x fd Hx Hd Hz.
    assert (E : call c (readings c a d w h l n) get_mean_speed
                = (divided_distance c a d w h l n / Ok d)%py).
    { destruct c; cbn [divided_distance readings];
        erewrite !call_eq by reflexivity.
      1-3: rewrite get_mean_speed_inherited by discriminate;
           rewrite Training_get_mean_speed_eq; reflexivity.
      rewrite get_mean_speed_Swimming by reflexivity.
      rewrite Swimming_get_mean_speed_eq. reflexivity. }
    rewrite E, Hx. cbn [rdiv mbind result_bind].
    destruct d as [z|f]; cbn [py_truediv to_float] in *;
      rewrite Hd; cbn [mbind result_bind]; rewrite Hz; reflexivity.
  - vm_compute. reflexivity.
  - vm_compute. reflexivity.
  - vm_compute. reflexivity.
  - vm_compute. reflexivity.
Qed.

(** C2 as stated fails for swimming: on the script's swimming package
    [get_mean_speed()] returns 1.0, while [get_distance()] divided by the
    duration is 0.9936. *)
Lemma swimming_mean_speed_is_not_distance_over_duration :
  call Swimming [PyInt 720; PyInt 1; PyInt 80; PyInt 25; PyInt 40]
       get_mean_speed
    = Ok (PyFloat 1)
  /\ (call Swimming [PyInt 720; PyInt 1; PyInt 80; PyInt 25; PyInt 40]
            get_distance
       / Ok (PyInt 1))%py
    = Ok (PyFloat 0.99359999999999993)
  /\ PrimFloat.eqb 1 0.99359999999999993 = false.
Proof. vm_compute. split_and!; reflexivity. Qed.

(** ** Swimming *)

(** C4.  Swimming's [get_mean_speed()] is
    [length_pool * count_pool / 1000 / duration]; the number of strokes has
    no part in it, and a 25 m pool swum 40 times in one hour gives exactly
    1.0 km/h whatever the number of strokes. *)
Theorem swimming_mean_speed_pool_geometry (a d w l n : num) :
  call Swimming [a; d; w; l; n] get_mean_speed
    = (Ok l * Ok n / Ok (PyInt 1000) / Ok d)%py
  /\ (forall a', call Swimming [a'; d; w; l; n] get_mean_speed
                 = call Swimming [a; d; w; l; n] get_mean_speed)
  /\ call Swimming [a; PyInt 1; w; PyInt 25; PyInt 40] get_mean_speed
    = Ok (PyFloat 1).
Proof.
  assert (E : forall a d l n,
             call Swimming [a; d; w; l; n] get_mean_speed
             = (Ok l * Ok n / Ok (PyInt 1000) / Ok d)%py).
  { intros. erewrite call_eq by reflexivity.
    rewrite get_mean_speed_Swimming by reflexivity.
    rewrite Swimming_get_mean_speed_eq. reflexivity. }
  split_and!.
  - apply E.
  - intros a'. rewrite !E. reflexivity.
  - rewrite E. vm_compute. reflexivity.
Qed.

(** The base formula, strokes over duration, gives another value on the
    script's own swimming package. *)
Example swimming_mean_speed_not_base_formula :
  call Swimming [PyInt 720; PyInt 1; PyInt 80; PyInt 25; PyInt 40]
       Training_get_mean_speed
  = Ok (PyFloat 0.99359999999999993).
Proof. vm_compute. reflexivity. Qed.

(** C5.  Swimming's [get_spent_calories()] is
    [(mean_speed + 1.1) * 2 * weight * duration]; the script's swimming
    package gives 336.0. *)
Theorem swimming_calories_formula (a d w l n : num) :
  call Swimming [a; d; w; l; n] get_spent_calories
    = ((call Swimming [a; d; w; l; n] get_mean_speed + Ok (PyFloat 1.1))
       * Ok (PyInt 2) * Ok w * Ok d)%py
  /\ call Swimming [PyInt 720; PyInt 1; PyInt 80; PyInt 25; PyInt 40]
       get_spent_calories
    = Ok (PyFloat 336).
Proof.
  split.
  - erewrite !call_eq by reflexivity.
    change (returns get_spent_calories ?s)
      with (returns Swimming_get_spent_calories s).
    rewrite Swimming_get_spent_calories_eq. reflexivity.
  - vm_compute. reflexivity.
Qed.

(** ** The factory *)

Lemma data_of_training_Some (workout_type : string) (c : cls) :
  data_of_training !! workout_type = Some c ->
  (workout_type = "SWM" /\ c = Swimming)
  \/ (workout_type = "RUN" /\ c = Running)
  \/ (workout_type = "WLK" /\ c = SportsWalking).
Proof.
  unfold data_of_training. intros H.
  apply lookup_insert_Some in H as [[<- <-]|[_ H]]; [tauto|].
  apply lookup_insert_Some in H as [[<- <-]|[_ H]]; [tauto|].
  apply lookup_insert_Some in H as [[<- <-]|[_ H]]; [tauto|].
  rewrite lookup_empty in H. discriminate.
Qed.

Lemma data_of_training_None (workout_type : string) :
  workout_type ∉ ["SWM"; "RUN"; "WLK"] ->
  data_of_training !! workout_type = None.
Proof.
  intros H. destruct (data_of_training !! workout_type) as [c|] eqn:E;
    [|reflexivity].
  apply data_of_training_Some in E as [[-> _]|[[-> _]|[-> _]]];
    exfalso; apply H; set_solver.
Qed.

Lemma new_class c args self : new c args = Ok self -> class_of self = c.
Proof.
  destruct c; do 6 (try destruct args as [|? args]);
    cbn; intros H; try discriminate H; injection H as <-; reflexivity.
Qed.

(** C3.  A code other than SWM, RUN and WLK makes [read_package] raise the
    error that names the code; each of the three codes gives an instance of
    its class, with the readings assigned in order to the parameters of the
    constructor. *)
Theorem read_package_dispatch (workout_type : string) (data : list num) :
  (workout_type ∉ ["SWM"; "RUN"; "WLK"] ->
   read_package workout_type data
   = Raise (KeyError ("Не верный тип тренировки - " ++ workout_type)))
  /\ read_package "XYZ" data
     = Raise (KeyError "Не верный тип тренировки - XYZ")
  /\ read_package "SWM" data = new Swimming data
  /\ read_package "RUN" data = new Running data
  /\ read_package "WLK" data = new SportsWalking data
  /\ (forall action duration weight length_pool count_pool,
        read_package "SWM" [action; duration; weight; length_pool; count_pool]
        = Ok (mkobject Swimming (Some action) (Some duration) (Some weight)
                       None (Some length_pool) (Some count_pool)))
  /\ (forall action duration weight,
        read_package "RUN" [action; duration; weight]
        = Ok (mkobject Running (Some action) (Some duration) (Some weight)
                       None None None))
  /\ (forall action duration weight height,
        read_package "WLK" [action; duration; weight; height]
        = Ok (mkobject SportsWalking (Some action) (Some duration)
                       (Some weight) (Some height) None None)).
Proof.
  split_and!; try reflexivity.
  intros H. unfold read_package.
  rewrite data_of_training_None by exact H. reflexivity.
Qed.

Lemma read_package_dispatch_witness :
  read_package "XYZ" [PyInt 1; PyInt 2; PyInt 3]
  = Raise (KeyError "Не верный тип тренировки - XYZ").
Proof.
  apply (proj1 (read_package_dispatch "XYZ" [PyInt 1; PyInt 2; PyInt 3])).
  intros H. repeat (apply elem_of_cons in H as [H|H]; [discriminate H|]).
  apply elem_of_nil in H. exact H.
Defined.

(** A recognised code with the wrong number of readings is not handled:
    the constructor call fails. *)
Example read_package_arity :
  read_package "RUN" [PyInt 15000; PyInt 1] = Raise TypeError
  /\ read_package "WLK" [PyInt 9000; PyInt 1; PyInt 75; PyInt 180; PyInt 0]
     = Raise TypeError.
Proof. split; reflexivity. Qed.

(** ** The report *)

Lemma show_training_info_eq self :
  returns show_training_info self
  = (duration ← attribute "duration" (duration self);
     distance ← returns get_distance self;
     speed ← returns get_mean_speed self;
     calories ← returns get_spent_calories self;
     Ok (InfoMessage.mk (__name__ (class_of self))
                        duration distance speed calories)).
Proof.
  unfold show_training_info.
  rewrite returns_bind by auto with readonly. cbn [returns type_name fst mbind result_bind].
  rewrite returns_bind by auto with readonly.
  unfold self_duration at 1. rewrite returns_getattr.
  destruct (attribute "duration" (duration self)); [|reflexivity].
  cbn [mbind result_bind].
  rewrite returns_bind by auto with readonly.
  destruct (returns get_distance self); [|reflexivity].
  cbn [mbind result_bind].
  rewrite returns_bind by auto with readonly.
  destruct (returns get_mean_speed self); [|reflexivity].
  cbn [mbind result_bind].
  rewrite returns_bind by auto with readonly.
  destruct (returns get_spent_calories self); reflexivity.
Qed.

Lemma show_training_info_type self info :
  returns show_training_info self = Ok info ->
  InfoMessage.training_type info = __name__ (class_of self).
Proof.
  rewrite show_training_info_eq.
  destruct (attribute "duration" (duration self)); [|discriminate].
  destruct (returns get_distance self); [|discriminate].
  destruct (returns get_mean_speed self); [|discriminate].
  destruct (returns get_spent_calories self); [|discriminate].
  intros [= <-]. reflexivity.
Qed.

(** A report built by [show_training_info] carries the default template. *)
Lemma show_training_info_MESSAGE self info :
  returns show_training_info self = Ok info ->
  InfoMessage.MESSAGE info = InfoMessage.MESSAGE_default.
Proof.
  rewrite show_training_info_eq.
  destruct (attribute "duration" (duration self)); [|discriminate].
  destruct (returns get_distance self); [|discriminate].
  destruct (returns get_mean_speed self); [|discriminate].
  destruct (returns get_spent_calories self); [|discriminate].
  intros [= <-]. reflexivity.
Qed.

Lemma get_message_label info line :
  InfoMessage.MESSAGE info = InfoMessage.MESSAGE_default ->
  returns InfoMessage.get_message info = Ok line ->
  exists rest,
    line = "Тип тренировки: " ++ InfoMessage.training_type info ++ "; " ++ rest.
Proof.
  intros HM. rewrite (get_message_default info HM).
  destruct (format_f 3 (InfoMessage.duration info)); [|discriminate].
  destruct (format_f 3 (InfoMessage.distance info)); [|discriminate].
  destruct (format_f 3 (InfoMessage.speed info)); [|discriminate].
  destruct (format_f 3 (InfoMessage.calories info)); [|discriminate].
  intros [= <-]. eexists. reflexivity.
Qed.

(** C10.  The training type of the report of a calculator the factory
    returned is the name of its class: Swimming for SWM, Running for RUN,
    SportsWalking for WLK, and so never the code; the printed line carries
    that name as its label. *)
Theorem report_names_the_class
  (workout_type : string) (data : list num)
  (training : object) (info : InfoMessage.t) :
  read_package workout_type data = Ok training ->
  returns show_training_info training = Ok info ->
  InfoMessage.training_type info = __name__ (class_of training)
  /\ (workout_type = "SWM" -> InfoMessage.training_type info = "Swimming")
  /\ (workout_type = "RUN" -> InfoMessage.training_type info = "Running")
  /\ (workout_type = "WLK" ->
      InfoMessage.training_type info = "SportsWalking")
  /\ InfoMessage.training_type info <> workout_type
  /\ (forall line,
        returns InfoMessage.get_message info = Ok line ->
        exists rest,
          line = "Тип тренировки: " ++ __name__ (class_of training)
                 ++ "; " ++ rest).
Proof.
  intros Hpkg Hinfo.
  pose proof (show_training_info_type _ _ Hinfo) as Hname.
  unfold read_package in Hpkg.
  destruct (data_of_training !! workout_type) as [c|] eqn:Hc;
    [|discriminate].
  apply new_class in Hpkg. rewrite Hpkg in Hname.
  split_and!.
  - congruence.
  - intros ->. vm_compute in Hc. injection Hc as <-. exact Hname.
  - intros ->. vm_compute in Hc. injection Hc as <-. exact Hname.
  - intros ->. vm_compute in Hc. injection Hc as <-. exact Hname.
  - rewrite Hname.
    apply data_of_training_Some in Hc as [[-> ->]|[[-> ->]|[-> ->]]];
      discriminate.
  - intros line Hline. rewrite Hpkg, <- Hname.
    apply get_message_label; [|exact Hline].
    apply (show_training_info_MESSAGE _ _ Hinfo).
Qed.

(** C8.  No method assigns an attribute: the calculator, and the report
    object, are after each call what they were before it.  So a second run
    of [show_training_info] followed by [get_message] meets the same
    calculator and gives the same line, or fails the same way. *)
Theorem report_is_repeatable (self : object) (info : InfoMessage.t) :
  leaves get_distance self = self
  /\ leaves get_mean_speed self = self
  /\ leaves get_spent_calories self = self
  /\ leaves show_training_info self = self
  /\ leaves InfoMessage.get_message info = info
  /\ leaves report self = self
  /\ returns report (leaves report self) = returns report self
  /\ returns (first ← report; second ← report; mret (first, second)) self
     = (line ← returns report self; Ok (line, line)).
Proof.
  assert (Hreport : readonly report).
  { unfold report. apply readonly_bind.
    - apply readonly_show_training_info.
    - intros; apply readonly_lift. }
  split_and!.
  - apply readonly_get_distance.
  - apply readonly_get_mean_speed.
  - apply readonly_get_spent_calories.
  - apply readonly_show_training_info.
  - apply readonly_get_message.
  - apply Hreport.
  - rewrite Hreport. reflexivity.
  - rewrite returns_bind by exact Hreport.
    destruct (returns report self) as [line|e] eqn:E; [|reflexivity].
    cbn [mbind result_bind].
    rewrite returns_bind by exact Hreport.
    rewrite E. reflexivity.
Qed.

(** ** Integers as floats

    [float(n)] keeps the sign of [n], is zero only for [0], and exists for
    every [n] below [2^1023] in absolute value. *)

Lemma fexp_eq e : fexp prec emax e = Z.max (e - 53) (-1074).
Proof. reflexivity. Qed.

Lemma digits2_log2 p : Zpos (digits2_pos p) = Z.log2 (Zpos p) + 1.
Proof.
  assert (E : digits2_pos p = Pos.size p) by (induction p; cbn; congruence).
  rewrite E. destruct p; cbn; lia.
Qed.

Lemma Zdigits2_log2 m : 0 < m -> Zdigits2 m = Z.log2 m + 1.
Proof. destruct m as [|q|q]; try lia. intros _. apply digits2_log2. Qed.

Lemma digits2_pos_iter_xO (p k : positive) :
  digits2_pos (Pos.iter xO p k) = (digits2_pos p + k)%positive.
Proof.
  induction k using Pos.peano_ind.
  - cbn. lia.
  - rewrite Pos.iter_succ. cbn [digits2_pos]. rewrite IHk. lia.
Qed.

Lemma iter_pos_iter {A} (f : A -> A) n x : SpecFloat.iter_pos f n x = Pos.iter f x n.
Proof.
  revert x. induction n; intros x; cbn.
  - rewrite !IHn, !Pos.iter_swap. reflexivity.
  - rewrite !IHn. reflexivity.
  - reflexivity.
Qed.

Lemma shr_1_m mrs :
  0 <= shr_m mrs -> shr_m (shr_1 mrs) = Z.div2 (shr_m mrs).
Proof.
  destruct mrs as [[|[p|p|]|p] r s]; cbn; intros; try reflexivity; lia.
Qed.

(** Shifting a mantissa right by [n] bits divides it by [2^n]. *)
Lemma shr_m_iter n mrs :
  0 <= shr_m mrs ->
  shr_m (SpecFloat.iter_pos shr_1 n mrs) = Z.shiftr (shr_m mrs) (Zpos n).
Proof.
  intros Hm. rewrite iter_pos_iter.
  induction n using Pos.peano_ind.
  - cbn [Pos.iter]. rewrite shr_1_m by exact Hm. apply Z.div2_spec.
  - rewrite Pos.iter_succ, shr_1_m.
    + rewrite IHn, Z.div2_spec, Z.shiftr_shiftr by lia. f_equal. lia.
    + rewrite IHn. apply Z.shiftr_nonneg. exact Hm.
Qed.

Lemma log2_52_pos x : Z.log2 x = 52 -> 0 < x.
Proof.
  intros H. destruct (Z.le_gt_cases x 0) as [Hle|Hgt]; [|lia].
  apply Z.log2_nonpos in Hle. lia.
Qed.

(** The first shift leaves a mantissa of exactly 53 bits. *)
Lemma shr_fexp_truncates (m : positive) (e : Z) :
  53 <= Zpos (digits2_pos m) -> -1000 <= e ->
  exists mrs' e1,
    shr_fexp prec emax (Zpos m) e loc_Exact = (mrs', e1)
    /\ Z.log2 (shr_m mrs') = 52
    /\ e1 = e + Z.log2 (Zpos m) - 52.
Proof.
  intros Hd He. unfold shr_fexp. rewrite fexp_eq.
  cbn [Zdigits2 shr_record_of_loc].
  pose proof (digits2_log2 m) as Hlog.
  replace (Z.max (Zpos (digits2_pos m) + e - 53) (-1074) - e)
    with (Z.log2 (Zpos m) - 52) by lia.
  destruct (Z.log2 (Zpos m) - 52) as [|k|k] eqn:Hn; try lia; cbn [shr].
  - eexists _, _. split; [reflexivity|]. cbn [shr_m]. lia.
  - eexists _, _. split; [reflexivity|].
    rewrite shr_m_iter by (cbn; lia). cbn [shr_m].
    rewrite Z.log2_shiftr by lia. lia.
Qed.

(** Rounding adds at most one, hence at most one bit. *)
Lemma round_nearest_even_log2 (m' : Z) (l : location) :
  Z.log2 m' = 52 ->
  0 < round_nearest_even m' l
  /\ 52 <= Z.log2 (round_nearest_even m' l) <= 53.
Proof.
  intros Hlog. pose proof (log2_52_pos _ Hlog) as Hpos.
  assert (Hsucc : 52 <= Z.log2 (m' + 1) <= 53).
  { change (m' + 1) with (Z.succ m'). destruct (Z.log2_succ_or m'); lia. }
  unfold round_nearest_even.
  destruct l as [|[]]; try destruct (Z.even m'); lia.
Qed.

(** The second shift takes the carry bit away, if there is one. *)
Lemma shr_fexp_canonical (m1 e1 : Z) :
  0 < m1 -> 52 <= Z.log2 m1 <= 53 -> -1000 <= e1 ->
  exists mrs'' e'' m,
    shr_fexp prec emax m1 e1 loc_Exact = (mrs'', e'')
    /\ shr_m mrs'' = Zpos m
    /\ canonical_mantissa prec emax m e'' = true
    /\ e'' <= e1 + 1.
Proof.
  intros Hpos Hlog He.
  unfold shr_fexp. rewrite fexp_eq, Zdigits2_log2 by exact Hpos.
  cbn [shr_record_of_loc].
  assert (Hn : Z.max (Z.log2 m1 + 1 + e1 - 53) (-1074) - e1 = 0
               \/ Z.max (Z.log2 m1 + 1 + e1 - 53) (-1074) - e1 = 1) by lia.
  destruct Hn as [Hn|Hn]; rewrite Hn; cbn [shr].
  - destruct m1 as [|q|q]; try lia.
    exists (Build_shr_record (Zpos q) false false), e1, q.
    split_and!; try reflexivity; [|lia].
    unfold canonical_mantissa. rewrite fexp_eq, digits2_log2. lia.
  - assert (Hm2 : shr_m (SpecFloat.iter_pos shr_1 1 (Build_shr_record m1 false false))
                  = Z.shiftr m1 1) by (apply shr_m_iter; cbn; lia).
    assert (Hl2 : Z.log2 (Z.shiftr m1 1) = 52)
      by (rewrite Z.log2_shiftr by exact Hpos; lia).
    pose proof (log2_52_pos _ Hl2) as Hp2.
    destruct (Z.shiftr m1 1) as [|q|q] eqn:E; try lia.
    eexists _, _, q. split_and!; [reflexivity | exact Hm2 | | lia].
    unfold canonical_mantissa. rewrite fexp_eq, digits2_log2. lia.
Qed.

Lemma binary_round_aux_int (s : bool) (m : positive) (e : Z) :
  53 <= Zpos (digits2_pos m) -> -1000 <= e ->
  exists m' e',
    binary_round_aux prec emax s (Zpos m) e loc_Exact
    = (if (e' <=? emax - prec)%Z then S754_finite s m' e' else S754_infinity s)
    /\ canonical_mantissa prec emax m' e' = true
    /\ e' <= e + Z.log2 (Zpos m) - 51.
Proof.
  intros Hd He. unfold binary_round_aux.
  destruct (shr_fexp_truncates m e Hd He) as (mrs' & e1 & -> & Hlog & He1).
  destruct (round_nearest_even_log2 (shr_m mrs') (loc_of_shr_record mrs') Hlog)
    as [Hpos Hlog1].
  pose proof (digits2_log2 m) as Hdm.
  destruct (shr_fexp_canonical _ e1 Hpos Hlog1 ltac:(lia))
    as (mrs'' & e'' & m2 & -> & -> & Hcanon & He'').
  exists m2, e''. split_and!; [reflexivity | exact Hcanon | lia].
Qed.

(** Rounding an integer: a valid float of its sign, or an infinity; never
    an infinity below [2^1023]. *)
Lemma binary_round_int (s : bool) (p : positive) :
  exists m e,
    binary_round prec emax s p 0
    = (if (e <=? emax - prec)%Z then S754_finite s m e else S754_infinity s)
    /\ canonical_mantissa prec emax m e = true
    /\ (Z.log2 (Zpos p) < 1023 -> e <= emax - prec).
Proof.
  unfold binary_round. rewrite fexp_eq. unfold shl_align.
  pose proof (Pos2Z.is_pos (digits2_pos p)) as Hd.
  pose proof (digits2_log2 p) as Hlog.
  change (emax - prec) with 971.
  destruct (Z.max (Zpos (digits2_pos p) + 0 - 53) (-1074) - 0)
    as [|k|k] eqn:Hk.
  - destruct (binary_round_aux_int s p 0) as (m & e & E & Hc & He);
      [lia | lia |].
    exists m, e. split_and!; [exact E | exact Hc | lia].
  - destruct (binary_round_aux_int s p 0) as (m & e & E & Hc & He);
      [lia | lia |].
    exists m, e. split_and!; [exact E | exact Hc | lia].
  - pose proof (digits2_pos_iter_xO p k) as Hshl.
    pose proof (digits2_log2 (Pos.iter xO p k)) as Hlog'.
    destruct (binary_round_aux_int s (Pos.iter xO p k)
                (Z.max (Zpos (digits2_pos p) + 0 - 53) (-1074)))
      as (m & e & E & Hc & He); [lia | lia |].
    exists m, e. split_and!; [exact E | exact Hc | lia].
Qed.

Lemma float_of_int_zero : float_of_int 0 = Ok 0%float.
Proof. reflexivity. Qed.

(** [float(n)] of a nonzero [n]: an overflow, or a finite float of the
    sign of [n]. *)
Lemma float_of_int_nonzero (z : Z) (f : float) :
  z <> 0 -> float_of_int z = Ok f ->
  exists m e, Prim2SF f = S754_finite (z <? 0)%Z m e.
Proof.
  intros Hz. unfold float_of_int, binary_normalize.
  assert (Hround : forall s p,
            (if PrimFloat.is_infinity (SF2Prim (binary_round prec emax s p 0))
             then Raise OverflowError
             else Ok (SF2Prim (binary_round prec emax s p 0))) = Ok f ->
            exists m e, Prim2SF f = S754_finite s m e).
  { intros s p. destruct (binary_round_int s p) as (m & e & -> & Hc & _).
    destruct (e <=? emax - prec)%Z eqn:He.
    - set (x := S754_finite s m e).
      destruct (PrimFloat.is_infinity (SF2Prim x)); [discriminate|].
      intros Hf. assert (f = SF2Prim x) as -> by congruence.
      exists m, e. apply Prim2SF_SF2Prim. subst x. cbn. unfold bounded.
      rewrite Hc, He. reflexivity.
    - destruct s; discriminate. }
  destruct z as [|p|p]; [congruence| |]; apply Hround.
Qed.

Lemma float_of_int_gt0 (z : Z) (f : float) :
  0 < z -> float_of_int z = Ok f -> PrimFloat.ltb 0 f = true.
Proof.
  intros Hz Hf.
  destruct (float_of_int_nonzero z f ltac:(lia) Hf) as (m & e & E).
  rewrite FloatAxioms.ltb_spec, E.
  replace (z <? 0)%Z with false by lia. reflexivity.
Qed.

Lemma float_of_int_is_zero (z : Z) (f : float) :
  float_of_int z = Ok f -> PrimFloat.is_zero f = (z =? 0)%Z.
Proof.
  intros Hf. destruct (Z.eq_dec z 0) as [->|Hz].
  - injection Hf as <-. reflexivity.
  - destruct (float_of_int_nonzero z f Hz Hf) as (m & e & E).
    unfold PrimFloat.is_zero. rewrite FloatAxioms.eqb_spec, E.
    replace (z =? 0)%Z with false by lia. destruct (z <? 0)%Z; reflexivity.
Qed.

(** No overflow below [2^1023]. *)
Lemma float_of_int_small (z : Z) :
  Z.abs z < 2 ^ 1023 -> exists f, float_of_int z = Ok f.
Proof.
  intros Hz. unfold float_of_int, binary_normalize.
  assert (Hlog : forall p, Zpos p < 2 ^ 1023 -> Z.log2 (Zpos p) < 1023).
  { intros p Hp. apply Z.log2_lt_pow2; lia. }
  assert (Hfin : forall s m e,
            canonical_mantissa prec emax m e = true ->
            (e <=? emax - prec)%Z = true ->
            PrimFloat.is_infinity (SF2Prim (S754_finite s m e)) = false).
  { intros s m e Hc He. unfold PrimFloat.is_infinity.
    rewrite FloatAxioms.eqb_spec, FloatAxioms.abs_spec.
    rewrite Prim2SF_SF2Prim
      by (cbn; unfold bounded; rewrite Hc, He; reflexivity).
    reflexivity. }
  destruct z as [|p|p].
  - eexists. reflexivity.
  - destruct (binary_round_int false p) as (m & e & -> & Hc & He).
    specialize (He (Hlog p ltac:(lia))). apply Z.leb_le in He.
    rewrite He, (Hfin _ _ _ Hc He). eexists. reflexivity.
  - destruct (binary_round_int true p) as (m & e & -> & Hc & He).
    specialize (He (Hlog p ltac:(lia))). apply Z.leb_le in He.
    rewrite He, (Hfin _ _ _ Hc He). eexists. reflexivity.
Qed.

(** ** Division by the duration *)

Lemma gt0_to_float (n : num) (f : float) :
  gt0 n -> to_float n = Ok f -> PrimFloat.ltb 0 f = true.
Proof.
  destruct n as [z|x]; cbn [gt0 to_float].
  - apply float_of_int_gt0.
  - intros H [= <-]. exact H.
Qed.

Lemma eq0_to_float (n : num) :
  eq0 n -> exists f, to_float n = Ok f /\ PrimFloat.is_zero f = true.
Proof.
  destruct n as [z|x]; cbn [eq0 to_float].
  - intros ->. exists 0%float. split; reflexivity.
  - intros H. exists x. split; [reflexivity | exact H].
Qed.

(** An [int] and the float it converts to are zero together. *)
Lemma to_float_is_zero (n : num) (f : float) :
  to_float n = Ok f -> (PrimFloat.is_zero f = true <-> eq0 n).
Proof.
  destruct n as [z|x]; cbn [eq0 to_float].
  - intros H. rewrite (float_of_int_is_zero z f H). apply Z.eqb_eq.
  - intros [= <-]. reflexivity.
Qed.

Lemma convertible_small (z : Z) :
  Z.abs z < 2 ^ 1023 -> convertible (PyInt z).
Proof. apply float_of_int_small. Qed.

Lemma convertible_float (f : float) : convertible (PyFloat f).
Proof. exists f. reflexivity. Qed.

Lemma ltb_not_zero (f : float) :
  PrimFloat.ltb 0 f = true -> PrimFloat.is_zero f = false.
Proof.
  unfold PrimFloat.is_zero.
  rewrite FloatAxioms.ltb_spec, FloatAxioms.eqb_spec.
  change (Prim2SF 0) with (S754_zero false).
  change (Prim2SF PrimFloat.zero) with (S754_zero false).
  destruct (Prim2SF f) as [s|s| |s m e]; cbn; try discriminate.
  - destruct s; reflexivity.
  - destruct s; reflexivity.
Qed.

Lemma py_truediv_float (a b v : num) :
  py_truediv a b = Ok v -> exists f, v = PyFloat f.
Proof.
  unfold py_truediv.
  destruct a as [x|x], b as [y|y]; unfold to_float, mbind, result_bind;
    repeat case_match; try discriminate; intros [= <-]; eauto.
Qed.

Lemma py_truediv_of_float (x : float) (b : num) :
  py_truediv (PyFloat x) b
  = (y ← to_float b;
     if PrimFloat.is_zero y then Raise ZeroDivisionError
     else Ok (PyFloat (PrimFloat.div x y))).
Proof. destruct b; reflexivity. Qed.

Lemma py_truediv_l (x : float) (b : num) (fb : float) :
  to_float b = Ok fb -> PrimFloat.is_zero fb = false ->
  py_truediv (PyFloat x) b = Ok (PyFloat (PrimFloat.div x fb)).
Proof.
  intros Hb Hz. rewrite py_truediv_of_float, Hb.
  cbn [mbind result_bind]. rewrite Hz. reflexivity.
Qed.


Lemma py_mul_of_float (x : float) (b : num) :
  py_mul (PyFloat x) b
  = (y ← to_float b; Ok (PyFloat (PrimFloat.mul x y))).
Proof. destruct b; reflexivity. Qed.

Lemma py_mul_by_float (a : num) (y : float) :
  py_mul a (PyFloat y)
  = (x ← to_float a; Ok (PyFloat (PrimFloat.mul x y))).
Proof. destruct a; reflexivity. Qed.

Lemma py_add_of_float (x : float) (b : num) :
  py_add (PyFloat x) b
  = (y ← to_float b; Ok (PyFloat (PrimFloat.add x y))).
Proof. destruct b; reflexivity. Qed.

Lemma py_mul_l (x : float) (b : num) (fb : float) :
  to_float b = Ok fb ->
  py_mul (PyFloat x) b = Ok (PyFloat (PrimFloat.mul x fb)).
Proof. intros Hb. rewrite py_mul_of_float, Hb. reflexivity. Qed.

Lemma py_mul_r (a : num) (fa y : float) :
  to_float a = Ok fa ->
  py_mul a (PyFloat y) = Ok (PyFloat (PrimFloat.mul fa y)).
Proof. intros Ha. rewrite py_mul_by_float, Ha. reflexivity. Qed.

Lemma py_add_l (x : float) (b : num) (fb : float) :
  to_float b = Ok fb ->
  py_add (PyFloat x) b = Ok (PyFloat (PrimFloat.add x fb)).
Proof. intros Hb. rewrite py_add_of_float, Hb. reflexivity. Qed.

Lemma rdiv_float (x y : result num) (v : num) :
  (x / y)%py = Ok v -> exists f, v = PyFloat f.
Proof.
  destruct x as [a|]; [|discriminate]. destruct y as [b|]; [|discriminate].
  apply py_truediv_float.
Qed.

Lemma divided_distance_float c a d w h l n dist :
  divided_distance c a d w h l n = Ok dist -> exists x, dist = PyFloat x.
Proof.
  destruct c; cbn [divided_distance readings];
    try (erewrite call_eq by reflexivity; rewrite get_distance_eq);
    apply rdiv_float.
Qed.

Lemma mean_speed_divides c a d w h l n :
  call c (readings c a d w h l n) get_mean_speed
  = (divided_distance c a d w h l n / Ok d)%py.
Proof.
  destruct c; cbn [divided_distance readings];
    erewrite !call_eq by reflexivity.
  1-3: rewrite get_mean_speed_inherited by discriminate;
       rewrite Training_get_mean_speed_eq; reflexivity.
  rewrite get_mean_speed_Swimming by reflexivity.
  rewrite Swimming_get_mean_speed_eq. reflexivity.
Qed.

Lemma mean_speed_gt0 c a d w h l n dist :
  gt0 d -> convertible d -> divided_distance c a d w h l n = Ok dist ->
  exists v, call c (readings c a d w h l n) get_mean_speed = Ok (PyFloat v).
Proof.
  intros Hpos [fd Hfd] Hdist.
  rewrite mean_speed_divides, Hdist.
  apply divided_distance_float in Hdist as [x ->].
  eexists. cbn [rdiv mbind result_bind].
  apply py_truediv_l; [exact Hfd|].
  apply ltb_not_zero, (gt0_to_float d); assumption.
Qed.


(** The step distance is computed as soon as the action count converts. *)
Lemma get_distance_convertible c a d w h l n :
  convertible a ->
  exists x,
    call c (readings c a d w h l n) get_distance = Ok (PyFloat x).
Proof.
  intros [fa Ha].
  assert (E : call c (readings c a d w h l n) get_distance
              = (Ok a * Ok (LEN_STEP c) / Ok M_IN_KM)%py).
  { destruct c; cbn [readings]; erewrite call_eq by reflexivity;
      rewrite get_distance_eq; reflexivity. }
  rewrite E. cbn [rmul rdiv mbind result_bind].
  assert (exists s, LEN_STEP c = PyFloat s) as [s ->]
    by (destruct c; eexists; reflexivity).
  rewrite (py_mul_r _ _ _ Ha). cbn [mbind result_bind].
  eexists. apply py_truediv_l; reflexivity.
Qed.

Lemma call_Running {A} a d w (m : method A) :
  call Running [a; d; w] m
  = returns m (mkobject Running (Some a) (Some d) (Some w) None None None).
Proof. reflexivity. Qed.

Lemma call_SportsWalking {A} a d w h (m : method A) :
  call SportsWalking [a; d; w; h] m
  = returns m (mkobject SportsWalking (Some a) (Some d) (Some w) (Some h)
                        None None).
Proof. reflexivity. Qed.

Lemma call_Swimming {A} a d w l n (m : method A) :
  call Swimming [a; d; w; l; n] m
  = returns m (mkobject Swimming (Some a) (Some d) (Some w) None
                        (Some l) (Some n)).
Proof. reflexivity. Qed.

Lemma call_Training {A} a d w (m : method A) :
  call Training [a; d; w] m
  = returns m (mkobject Training (Some a) (Some d) (Some w) None None None).
Proof. reflexivity. Qed.

(** ** Calories and the report, by the duration *)

Lemma report_eq self :
  returns report self
  = (info ← returns show_training_info self;
     returns InfoMessage.get_message info).
Proof.
  unfold report. rewrite returns_bind by apply readonly_show_training_info.
  reflexivity.
Qed.

Lemma get_message_defined name (d : num) (x y z : float) :
  convertible d ->
  exists line,
    returns InfoMessage.get_message
      (InfoMessage.mk name d (PyFloat x) (PyFloat y) (PyFloat z))
    = Ok line.
Proof.
  intros [fd Hd]. rewrite get_message_default by reflexivity.
  unfold format_f, InfoMessage.mk.
  cbn [InfoMessage.duration InfoMessage.distance InfoMessage.speed
       InfoMessage.calories to_float].
  rewrite Hd. cbn [mbind result_bind]. eexists. reflexivity.
Qed.

Lemma report_defined self (d : num) (x y z : float) :
  duration self = Some d -> convertible d ->
  returns get_distance self = Ok (PyFloat x) ->
  returns get_mean_speed self = Ok (PyFloat y) ->
  returns get_spent_calories self = Ok (PyFloat z) ->
  exists line, returns report self = Ok line.
Proof.
  intros Hd Hconv Hx Hy Hz.
  rewrite report_eq, show_training_info_eq, Hd, Hx, Hy, Hz.
  cbn [attribute mbind result_bind].
  apply get_message_defined, Hconv.
Qed.

Lemma running_calories_gt0 (a d w : num) :
  gt0 d -> convertible d -> convertible a -> convertible w ->
  (exists f, (Ok d * Ok MIN_IN_H)%py ≫= to_float = Ok f) ->
  exists v, call Running [a; d; w] get_spent_calories = Ok (PyFloat v).
Proof.
  intros Hd Hcd Ha [fw Hw] [fm Hm].
  destruct (get_distance_convertible Running a d w a a a Ha) as [x Hx].
  destruct (mean_speed_gt0 Running a d w a a a _ Hd Hcd Hx) as [v Hv].
  cbn [readings] in Hv. rewrite call_Running in Hv |- *.
  change (returns get_spent_calories ?s)
    with (returns Running_get_spent_calories s).
  rewrite Running_get_spent_calories_eq, Hv.
  cbn [attribute weight duration rmul radd rdiv mbind result_bind].
  rewrite (py_mul_r COEF_1 18 v) by reflexivity.
  cbn [mbind result_bind].
  rewrite (py_add_l _ COEF_2 1.79) by reflexivity.
  cbn [mbind result_bind].
  rewrite (py_mul_l _ w fw Hw). cbn [mbind result_bind].
  rewrite (py_truediv_l _ M_IN_KM 1000) by reflexivity.
  cbn [rmul mbind result_bind] in Hm.
  destruct (py_mul d MIN_IN_H) as [m|]; [|discriminate].
  cbn [mbind result_bind] in Hm |- *.
  rewrite (py_mul_l _ m fm Hm). eexists. reflexivity.
Qed.



Lemma call_report c args :
  call c args report
  = (self ← new c args;
     duration ← attribute "duration" (duration self);
     distance ← call c args get_distance;
     speed ← call c args get_mean_speed;
     calories ← call c args get_spent_calories;
     returns InfoMessage.get_message
       (InfoMessage.mk (__name__ (class_of self))
                       duration distance speed calories)).
Proof.
  unfold call. destruct (new c args) as [self|]; [|reflexivity].
  cbn [mbind result_bind].
  rewrite report_eq, show_training_info_eq.
  destruct (attribute "duration" (duration self)); [|reflexivity].
  destruct (returns get_distance self); [|reflexivity].
  destruct (returns get_mean_speed self); [|reflexivity].
  destruct (returns get_spent_calories self); reflexivity.
Qed.


Lemma new_readings c a d w h l n :
  exists self,
    new c (readings c a d w h l n) = Ok self /\ duration self = Some d.
Proof. destruct c; eexists; split; reflexivity. Qed.


Lemma report_defined_from c a d w h l n (v z : float) :
  convertible d -> convertible a ->
  call c (readings c a d w h l n) get_mean_speed = Ok (PyFloat v) ->
  call c (readings c a d w h l n) get_spent_calories = Ok (PyFloat z) ->
  exists line, call c (readings c a d w h l n) report = Ok line.
Proof.
  intros Hd Ha Hv Hz.
  rewrite call_report.
  destruct (new_readings c a d w h l n) as (self & Hnew & Hdur).
  rewrite Hnew. cbn [mbind result_bind]. rewrite Hdur.
  cbn [attribute mbind result_bind].
  destruct (get_distance_convertible c a d w h l n Ha) as [x ->].
  rewrite Hv, Hz. cbn [attribute mbind result_bind].
  apply get_message_defined, Hd.
Qed.

(** Integer readings of any practical size: a running workout with a
    positive duration always has its report. *)
Lemma running_report_in_range (a d w : Z) :
  0 < d -> Z.abs a < 2 ^ 1023 -> d < 2 ^ 1000 -> Z.abs w < 2 ^ 1023 ->
  exists line, call Running [PyInt a; PyInt d; PyInt w] report = Ok line.
Proof.
  intros Hd Ha Hd' Hw.
  assert (Hcd : convertible (PyInt d)) by (apply convertible_small; lia).
  assert (Hca : convertible (PyInt a)) by (apply convertible_small; lia).
  assert (Hcw : convertible (PyInt w)) by (apply convertible_small; lia).
  assert (Hm : exists f,
            (Ok (PyInt d) * Ok MIN_IN_H)%py ≫= to_float = Ok f).
  { apply (float_of_int_small (d * 60)). lia. }
  pose (z := PyInt 0).
  destruct (get_distance_convertible Running (PyInt a) (PyInt d) (PyInt w)
              z z z Hca) as [x Hx].
  destruct (mean_speed_gt0 Running (PyInt a) (PyInt d) (PyInt w) z z z
              _ Hd Hcd Hx) as [v Hv].
  destruct (running_calories_gt0 (PyInt a) (PyInt d) (PyInt w)
              Hd Hcd Hca Hcw Hm) as [c Hc].
  eapply (report_defined_from Running _ _ _ z z z); eassumption.
Qed.


(** * Further properties of the code *)

(** ** The factory: arity and round trip *)

Lemma new_arity (c : cls) (args : list num) :
  (length args = arity c -> exists self, new c args = Ok self)
  /\ (length args <> arity c -> new c args = Raise TypeError).
Proof.
  destruct c; do 6 (try destruct args as [|? args]); cbn;
    split; intros H; try (exfalso; lia); try reflexivity; eauto.
Qed.

Lemma new_attributes (c : cls) (args : list num) (self : object) :
  new c args = Ok self -> attributes self = args /\ length args = arity c.
Proof.
  destruct c; do 6 (try destruct args as [|? args]);
    cbn; intros H; try discriminate H; injection H as <-; split; reflexivity.
Qed.

(** X1.  For a recognised code [read_package] returns an instance exactly
    when the number of readings is the number of parameters of the class's
    constructor (5 for SWM, 3 for RUN, 4 for WLK); with any other number it
    raises [TypeError]. *)
Theorem read_package_arity_checked
  (workout_type : string) (c : cls) (data : list num) :
  data_of_training !! workout_type = Some c ->
  (length data = arity c -> exists self, read_package workout_type data = Ok self)
  /\ (length data <> arity c -> read_package workout_type data = Raise TypeError)
  /\ arity c = match c with
               | Swimming => 5%nat
               | SportsWalking => 4%nat
               | _ => 3%nat
               end.
Proof.
  intros Hc. unfold read_package. rewrite Hc.
  destruct (new_arity c data) as [Hok Herr].
  split_and!; [exact Hok | exact Herr | destruct c; reflexivity].
Qed.

Lemma read_package_arity_checked_witness :
  (exists self,
     read_package "WLK" [PyInt 9000; PyInt 1; PyInt 75; PyInt 180] = Ok self)
  /\ read_package "WLK" [PyInt 9000; PyInt 1; PyInt 75] = Raise TypeError.
Proof.
  split.
  - apply (proj1 (read_package_arity_checked "WLK" SportsWalking
                    [PyInt 9000; PyInt 1; PyInt 75; PyInt 180] eq_refl)).
    reflexivity.
  - apply (proj1 (proj2 (read_package_arity_checked "WLK" SportsWalking
                           [PyInt 9000; PyInt 1; PyInt 75] eq_refl))).
    discriminate.
Defined.

(** X2.  What [read_package] stores can be read back: the attributes of the
    instance it returns are the readings, in order and unchanged (an [int]
    stays an [int]), and its class is the one the code maps to. *)
Theorem read_package_round_trip
  (workout_type : string) (data : list num) (self : object) :
  read_package workout_type data = Ok self ->
  attributes self = data
  /\ data_of_training !! workout_type = Some (class_of self)
  /\ length data = arity (class_of self).
Proof.
  unfold read_package.
  destruct (data_of_training !! workout_type) as [c|] eqn:Hc;
    [|discriminate].
  intros Hnew. pose proof (new_class _ _ _ Hnew) as ->.
  destruct (new_attributes _ _ _ Hnew) as [Hattrs Hlen].
  split_and!; [exact Hattrs | reflexivity | exact Hlen].
Qed.

Lemma read_package_round_trip_witness :
  exists self,
    read_package "RUN" [PyInt 15000; PyFloat 1; PyInt 75] = Ok self
    /\ attributes self = [PyInt 15000; PyFloat 1; PyInt 75]
    /\ class_of self = Running.
Proof.
  eexists. split; [reflexivity|].
  destruct (read_package_round_trip "RUN" [PyInt 15000; PyFloat 1; PyInt 75]
              _ eq_refl) as (Hattrs & _ & _).
  split; [exact Hattrs | reflexivity].
Defined.

(** ** What the methods return and how they fail *)

Lemma to_float_fails (n : num) : fails_within overflow (to_float n) = true.
Proof.
  destruct n as [z|f]; cbn; [|reflexivity].
  unfold float_of_int. case_match; reflexivity.
Qed.

Lemma to_float_error (n : num) (e : exn) :
  to_float n = Raise e -> e = OverflowError.
Proof.
  intros H. pose proof (to_float_fails n) as F. rewrite H in F.
  destruct e; cbn in F; congruence.
Qed.

Lemma overflow_arithmetic e : overflow e = true -> arithmetic e = true.
Proof. destruct e; cbn; congruence. Qed.

Lemma bind2_fails (P : exn -> bool) (a b : num)
  (k : float -> float -> result num) :
  (forall e, overflow e = true -> P e = true) ->
  (forall x y, fails_within P (k x y) = true) ->
  fails_within P (x ← to_float a; y ← to_float b; k x y) = true.
Proof.
  intros HP Hk.
  pose proof (to_float_fails a) as Fa. pose proof (to_float_fails b) as Fb.
  destruct (to_float a) as [x|ea]; cbn in *; [|auto].
  destruct (to_float b) as [y|eb]; cbn in *; auto.
Qed.

Lemma py_mul_fails (a b : num) : fails_within overflow (py_mul a b) = true.
Proof.
  destruct a as [x|x], b as [y|y]; [reflexivity| | |];
    apply (bind2_fails overflow _ _
             (fun x y => Ok (PyFloat (PrimFloat.mul x y)))); auto.
Qed.

Lemma py_add_fails (a b : num) : fails_within overflow (py_add a b) = true.
Proof.
  destruct a as [x|x], b as [y|y]; [reflexivity| | |];
    apply (bind2_fails overflow _ _
             (fun x y => Ok (PyFloat (PrimFloat.add x y)))); auto.
Qed.

Lemma float_pow2_fails (f : float) :
  fails_within overflow (float_pow2 f) = true.
Proof. unfold float_pow2. repeat case_match; reflexivity. Qed.

Lemma py_pow2_fails (a : num) : fails_within overflow (py_pow2 a) = true.
Proof.
  destruct a as [z|f]; cbn [py_pow2]; [reflexivity|].
  pose proof (float_pow2_fails f) as H.
  destruct (float_pow2 f); [reflexivity | exact H].
Qed.

Lemma py_truediv_fails (a b : num) :
  fails_within arithmetic (py_truediv a b) = true.
Proof.
  assert (Hk : forall x y,
            fails_within arithmetic
              (if PrimFloat.is_zero y then Raise ZeroDivisionError
               else Ok (PyFloat (PrimFloat.div x y))) = true)
    by (intros; case_match; reflexivity).
  destruct a as [x|x], b as [y|y].
  - cbn. repeat case_match; reflexivity.
  - apply (bind2_fails arithmetic _ _ _ overflow_arithmetic Hk).
  - apply (bind2_fails arithmetic _ _ _ overflow_arithmetic Hk).
  - apply (bind2_fails arithmetic _ _ _ overflow_arithmetic Hk).
Qed.

Lemma fails_within_weaken {A} (P Q : exn -> bool) (r : result A) :
  (forall e, P e = true -> Q e = true) ->
  fails_within P r = true -> fails_within Q r = true.
Proof. destruct r; cbn; auto. Qed.

Section Fails.
Variable P : exn -> bool.
Hypothesis P_overflow : forall e, overflow e = true -> P e = true.

Lemma rmul_fails (x y : result num) :
  fails_within P x = true -> fails_within P y = true ->
  fails_within P (x * y)%py = true.
Proof.
  destruct x as [a|]; [|trivial]. destruct y as [b|]; [|trivial]. intros _ _.
  apply (fails_within_weaken overflow); [exact P_overflow|].
  apply py_mul_fails.
Qed.

Lemma radd_fails (x y : result num) :
  fails_within P x = true -> fails_within P y = true ->
  fails_within P (x + y)%py = true.
Proof.
  destruct x as [a|]; [|trivial]. destruct y as [b|]; [|trivial]. intros _ _.
  apply (fails_within_weaken overflow); [exact P_overflow|].
  apply py_add_fails.
Qed.

Lemma rpow2_fails (x : result num) :
  fails_within P x = true -> fails_within P (rpow2 x) = true.
Proof.
  destruct x as [a|]; [|trivial]. intros _.
  apply (fails_within_weaken overflow); [exact P_overflow|].
  apply py_pow2_fails.
Qed.

End Fails.

Lemma rdiv_fails (x y : result num) :
  fails_within arithmetic x = true -> fails_within arithmetic y = true ->
  fails_within arithmetic (x / y)%py = true.
Proof.
  destruct x as [a|]; [|trivial]. destruct y as [b|]; [|trivial]. intros _ _.
  apply py_truediv_fails.
Qed.

(** Division by a constant other than zero cannot raise
    [ZeroDivisionError]. *)
Lemma rdiv_const_fails (x : result num) (k : num) (fk : float) :
  to_float k = Ok fk -> PrimFloat.is_zero fk = false ->
  float_result x = true ->
  fails_within overflow x = true ->
  fails_within overflow (x / Ok k)%py = true.
Proof.
  intros Hk Hz. destruct x as [[z|f]|]; cbn [float_result is_float];
    try discriminate; trivial.
  intros _ _. cbn [rdiv mbind result_bind].
  rewrite py_truediv_of_float, Hk. cbn [mbind result_bind].
  rewrite Hz. reflexivity.
Qed.

(** Floats are contagious. *)
Lemma rdiv_float_result (x y : result num) : float_result (x / y)%py = true.
Proof.
  destruct (x / y)%py as [v|] eqn:E; [|reflexivity].
  apply rdiv_float in E as [f ->]. reflexivity.
Qed.

Lemma rmul_float_l (x y : result num) :
  float_result x = true -> float_result (x * y)%py = true.
Proof.
  destruct x as [[z|f]|]; cbn [float_result is_float];
    try discriminate; trivial. intros _.
  destruct y as [b|]; [|reflexivity]. cbn [rmul mbind result_bind].
  rewrite py_mul_of_float. destruct (to_float b); reflexivity.
Qed.

Lemma rmul_float_r (x y : result num) :
  float_result y = true -> float_result (x * y)%py = true.
Proof.
  destruct x as [a|]; [|reflexivity].
  destruct y as [[z|f]|]; cbn [float_result is_float];
    try discriminate; trivial. intros _. cbn [rmul mbind result_bind].
  rewrite py_mul_by_float. destruct (to_float a); reflexivity.
Qed.

Lemma radd_float_l (x y : result num) :
  float_result x = true -> float_result (x + y)%py = true.
Proof.
  destruct x as [[z|f]|]; cbn [float_result is_float];
    try discriminate; trivial. intros _.
  destruct y as [b|]; [|reflexivity]. cbn [radd mbind result_bind].
  rewrite py_add_of_float. destruct (to_float b); reflexivity.
Qed.

Lemma radd_float_r (x y : result num) :
  float_result y = true -> float_result (x + y)%py = true.
Proof.
  destruct x as [a|]; [|reflexivity].
  destruct y as [[z|f]|]; cbn [float_result is_float];
    try discriminate; trivial. intros _. cbn [radd mbind result_bind].
  destruct a as [z|x]; cbn [py_add to_float]; unfold mbind, result_bind;
    repeat case_match; reflexivity.
Qed.

Lemma get_mean_speed_eq self :
  returns get_mean_speed self
  = match class_of self with
    | Swimming =>
        (attribute "length_pool" (length_pool self)
         * attribute "count_pool" (count_pool self)
         / Ok M_IN_KM
         / attribute "duration" (duration self))%py
    | _ =>
        (returns get_distance self / attribute "duration" (duration self))%py
    end.
Proof.
  destruct (class_of self) eqn:Hc.
  1-3: rewrite get_mean_speed_inherited by congruence;
       apply Training_get_mean_speed_eq.
  rewrite get_mean_speed_Swimming by exact Hc.
  apply Swimming_get_mean_speed_eq.
Qed.

Lemma get_spent_calories_eq self :
  returns get_spent_calories self
  = match class_of self with
    | Training => Raise NotImplementedError
    | Running => returns Running_get_spent_calories self
    | SportsWalking => returns SportsWalking_get_spent_calories self
    | Swimming => returns Swimming_get_spent_calories self
    end.
Proof. unfold returns, get_spent_calories. destruct (class_of self); reflexivity. Qed.

Lemma get_distance_float self : float_result (returns get_distance self) = true.
Proof. rewrite get_distance_eq. apply rdiv_float_result. Qed.

Lemma get_mean_speed_float self :
  float_result (returns get_mean_speed self) = true.
Proof.
  rewrite get_mean_speed_eq. destruct (class_of self); apply rdiv_float_result.
Qed.

Lemma get_spent_calories_float self :
  float_result (returns get_spent_calories self) = true.
Proof.
  rewrite get_spent_calories_eq. destruct (class_of self).
  - reflexivity.
  - rewrite Running_get_spent_calories_eq.
    apply rmul_float_l, rdiv_float_result.
  - rewrite SportsWalking_get_spent_calories_eq.
    apply rmul_float_l, radd_float_l, rmul_float_l. reflexivity.
  - rewrite Swimming_get_spent_calories_eq.
    do 3 apply rmul_float_l. apply radd_float_r. reflexivity.
Qed.

(** X3.  Whatever the readings, ints included, a value that
    [get_distance], [get_mean_speed] or [get_spent_calories] returns is a
    float, as their annotations say; this holds for every instance. *)
Theorem methods_return_floats (self : object) :
  float_result (returns get_distance self) = true
  /\ float_result (returns get_mean_speed self) = true
  /\ float_result (returns get_spent_calories self) = true.
Proof.
  split_and!;
    [apply get_distance_float | apply get_mean_speed_float
     | apply get_spent_calories_float].
Qed.

Lemma call_get_distance c a d w h l n :
  call c (readings c a d w h l n) get_distance
  = (Ok a * Ok (LEN_STEP c) / Ok M_IN_KM)%py.
Proof.
  destruct c; cbn [readings]; erewrite call_eq by reflexivity;
    rewrite get_distance_eq; reflexivity.
Qed.

(** Dividing by [M_IN_KM] never raises [ZeroDivisionError]. *)
Lemma rdiv_M_IN_KM_fails (x : result num) :
  fails_within overflow x = true ->
  fails_within overflow (x / Ok M_IN_KM)%py = true.
Proof.
  destruct x as [[z|f]|]; intros H.
  - cbn. case_match; reflexivity.
  - cbn [rdiv mbind result_bind].
    rewrite (py_truediv_l f M_IN_KM 1000) by reflexivity. reflexivity.
  - exact H.
Qed.

Lemma divided_distance_fails c a d w h l n :
  fails_within overflow (divided_distance c a d w h l n) = true.
Proof.
  assert (H : forall x y : num,
            fails_within overflow (Ok x * Ok y / Ok M_IN_KM)%py = true).
  { intros. apply rdiv_M_IN_KM_fails, rmul_fails; auto. }
  destruct c; cbn [divided_distance]; try rewrite call_get_distance; apply H.
Qed.

(** X4.  [get_distance()] depends on the action count alone: it returns
    [float(action) * LEN_STEP / 1000] exactly when the action count converts
    to a float, and otherwise raises [OverflowError]; no duration, weight or
    height can make it fail, and it never divides by zero. *)
Theorem get_distance_defined_iff (c : cls) (a d w h l n : num) :
  let distance := call c (readings c a d w h l n) get_distance in
  (convertible a <-> exists x, distance = Ok (PyFloat x))
  /\ (~ convertible a <-> distance = Raise OverflowError)
  /\ distance = (fa ← to_float a;
                 step ← to_float (LEN_STEP c);
                 Ok (PyFloat (PrimFloat.div (PrimFloat.mul fa step) 1000))).
Proof.
  intros distance. subst distance. rewrite call_get_distance.
  assert (exists s, LEN_STEP c = PyFloat s) as [s Hs]
    by (destruct c; eexists; reflexivity).
  assert (E : (Ok a * Ok (LEN_STEP c) / Ok M_IN_KM)%py
              = (fa ← to_float a;
                 Ok (PyFloat (PrimFloat.div (PrimFloat.mul fa s) 1000)))).
  { rewrite Hs. cbn [rmul rdiv mbind result_bind].
    rewrite py_mul_by_float. destruct (to_float a) as [fa|]; [|reflexivity].
    cbn [mbind result_bind].
    rewrite (py_truediv_l _ M_IN_KM 1000) by reflexivity. reflexivity. }
  rewrite E. unfold convertible.
  pose proof (to_float_error a) as Herr.
  destruct (to_float a) as [fa|e]; cbn [mbind result_bind].
  - split; [|split].
    + split; eauto.
    + split; [intros H; exfalso; eauto | discriminate].
    + rewrite Hs. reflexivity.
  - rewrite (Herr e) by reflexivity. split; [|split].
    + split; [intros [f [=]] | intros [x [=]]].
    + split; [reflexivity | intros _ [f [=]]].
    + reflexivity.
Qed.

(** X5.  [get_mean_speed()] raises [ZeroDivisionError] exactly when the
    distance it divides has been computed and the duration equals zero
    ([0], [0.0] or [-0.0]); it returns exactly when that distance is
    computed and the duration converts to a float other than zero, a
    negative one included; every other failure is an [OverflowError]. *)
Theorem get_mean_speed_zero_division (c : cls) (a d w h l n : num) :
  let speed := call c (readings c a d w h l n) get_mean_speed in
  let distance := divided_distance c a d w h l n in
  (speed = Raise ZeroDivisionError
   <-> (exists dist, distance = Ok dist) /\ eq0 d)
  /\ ((exists v, speed = Ok (PyFloat v))
      <-> (exists dist, distance = Ok dist) /\ convertible d /\ ~ eq0 d)
  /\ fails_within arithmetic speed = true.
Proof.
  intros speed distance. subst speed distance.
  rewrite mean_speed_divides.
  pose proof (divided_distance_fails c a d w h l n) as Hfail.
  pose proof (divided_distance_float c a d w h l n) as Hfloat.
  destruct (divided_distance c a d w h l n) as [dist|e].
  2:{ cbn [rdiv mbind result_bind fails_within] in *. split; [|split].
      - split; [intros [= ->]; discriminate Hfail | intros [[? [=]] _]].
      - split; [intros [? [=]] | intros [[? [=]] _]].
      - apply overflow_arithmetic, Hfail. }
  destruct (Hfloat dist eq_refl) as [x ->]. clear Hfail Hfloat.
  cbn [rdiv mbind result_bind]. rewrite py_truediv_of_float.
  unfold convertible.
  pose proof (to_float_error d) as Herr.
  pose proof (to_float_is_zero d) as Hzero.
  pose proof (eq0_to_float d) as Hconv.
  destruct (to_float d) as [fd|e]; cbn [mbind result_bind].
  - specialize (Hzero fd eq_refl).
    destruct (PrimFloat.is_zero fd) eqn:Hz; (split; [|split]).
    + split; [|reflexivity].
      intros _. split; [eauto | apply Hzero; reflexivity].
    + split; [intros [? [=]]|].
      intros (_ & _ & Hn). exfalso. apply Hn, Hzero. reflexivity.
    + reflexivity.
    + split; [discriminate|].
      intros [_ H0]. apply Hzero in H0. discriminate.
    + split; [|eauto].
      intros _. split; [eauto|]. split; [eauto|].
      intros H0. apply Hzero in H0. discriminate.
    + reflexivity.
  - rewrite (Herr e) by reflexivity. split; [|split].
    + split; [discriminate|].
      intros [_ H0]. destruct (Hconv H0) as (f & [=] & _).
    + split; [intros [? [=]] | intros (_ & [f [=]] & _)].
    + reflexivity.
Qed.

(** ** Errors of the concrete classes *)

Lemma call_get_spent_calories_Running a d w :
  call Running [a; d; w] get_spent_calories
  = ((Ok COEF_1 * call Running [a; d; w] get_mean_speed + Ok COEF_2)
     * Ok w / Ok M_IN_KM * (Ok d * Ok MIN_IN_H))%py.
Proof.
  rewrite !call_Running.
  change (returns get_spent_calories ?s)
    with (returns Running_get_spent_calories s).
  rewrite Running_get_spent_calories_eq. reflexivity.
Qed.

Lemma call_get_spent_calories_SportsWalking a d w h :
  call SportsWalking [a; d; w; h] get_spent_calories
  = ((Ok CALORIES_WEIGHT_MULTIPLIER * Ok w
      + (rpow2 (call SportsWalking [a; d; w; h] get_mean_speed
                * Ok KMH_IN_MSEC)
         / (Ok h / Ok CM_IN_M))
        * Ok CALORIES_SPEED_HEIGHT_MULTIPLIER * Ok w)
     * (Ok d * Ok MIN_IN_H))%py.
Proof.
  rewrite !call_SportsWalking.
  change (returns get_spent_calories ?s)
    with (returns SportsWalking_get_spent_calories s).
  rewrite SportsWalking_get_spent_calories_eq. reflexivity.
Qed.

Lemma call_get_spent_calories_Swimming a d w l n :
  call Swimming [a; d; w; l; n] get_spent_calories
  = ((call Swimming [a; d; w; l; n] get_mean_speed + Ok CALORIES_COTF_5)
     * Ok CALORIES_COTF_6 * Ok w * Ok d)%py.
Proof.
  rewrite !call_Swimming.
  change (returns get_spent_calories ?s)
    with (returns Swimming_get_spent_calories s).
  rewrite Swimming_get_spent_calories_eq. reflexivity.
Qed.

Lemma call_get_mean_speed_fails c a d w h l n :
  fails_within arithmetic
    (call c (readings c a d w h l n) get_mean_speed) = true.
Proof.
  rewrite mean_speed_divides. apply rdiv_fails; [|reflexivity].
  apply (fails_within_weaken overflow); [apply overflow_arithmetic|].
  apply divided_distance_fails.
Qed.

Lemma call_get_spent_calories_fails c a d w h l n :
  c <> Training ->
  fails_within arithmetic
    (call c (readings c a d w h l n) get_spent_calories) = true.
Proof.
  intros Hc.
  pose proof (call_get_mean_speed_fails c a d w h l n) as Hv.
  pose proof overflow_arithmetic as Ho.
  destruct c; [congruence| | |]; cbn [readings] in *.
  - rewrite call_get_spent_calories_Running.
    apply rmul_fails; [exact Ho | | apply rmul_fails; auto].
    apply rdiv_fails; [|reflexivity].
    apply rmul_fails; [exact Ho | | reflexivity].
    apply radd_fails; [exact Ho | | reflexivity].
    apply rmul_fails; [exact Ho | reflexivity | exact Hv].
  - rewrite call_get_spent_calories_SportsWalking.
    apply rmul_fails; [exact Ho | | apply rmul_fails; auto].
    apply radd_fails; [exact Ho | apply rmul_fails; auto |].
    apply rmul_fails; [exact Ho | | reflexivity].
    apply rmul_fails; [exact Ho | | reflexivity].
    apply rdiv_fails; [|apply rdiv_fails; reflexivity].
    apply rpow2_fails; [exact Ho|].
    apply rmul_fails; [exact Ho | exact Hv | reflexivity].
  - rewrite call_get_spent_calories_Swimming.
    apply rmul_fails; [exact Ho | | reflexivity].
    apply rmul_fails; [exact Ho | | reflexivity].
    apply rmul_fails; [exact Ho | | reflexivity].
    apply radd_fails; [exact Ho | exact Hv | reflexivity].
Qed.

Lemma get_message_fails info :
  InfoMessage.MESSAGE info = InfoMessage.MESSAGE_default ->
  fails_within overflow (returns InfoMessage.get_message info) = true.
Proof.
  intros HM. rewrite (get_message_default info HM). unfold format_f.
  pose proof (to_float_fails (InfoMessage.duration info)) as H1.
  pose proof (to_float_fails (InfoMessage.distance info)) as H2.
  pose proof (to_float_fails (InfoMessage.speed info)) as H3.
  pose proof (to_float_fails (InfoMessage.calories info)) as H4.
  destruct (to_float (InfoMessage.duration info)); [|exact H1].
  destruct (to_float (InfoMessage.distance info)); [|exact H2].
  destruct (to_float (InfoMessage.speed info)); [|exact H3].
  destruct (to_float (InfoMessage.calories info)); [|exact H4].
  reflexivity.
Qed.

Lemma call_report_fails c a d w h l n :
  c <> Training ->
  fails_within arithmetic (call c (readings c a d w h l n) report) = true.
Proof.
  intros Hc. rewrite call_report.
  destruct (new_readings c a d w h l n) as (self & Hnew & Hdur).
  rewrite Hnew. cbn [mbind result_bind]. rewrite Hdur.
  cbn [attribute mbind result_bind].
  rewrite call_get_distance.
  assert (Hdist : fails_within overflow
                    (Ok a * Ok (LEN_STEP c) / Ok M_IN_KM)%py = true)
    by (apply rdiv_M_IN_KM_fails, rmul_fails; auto).
  destruct (Ok a * Ok (LEN_STEP c) / Ok M_IN_KM)%py as [dist|e];
    [|apply overflow_arithmetic, Hdist]. cbn [mbind result_bind].
  pose proof (call_get_mean_speed_fails c a d w h l n) as Hv.
  destruct (call c (readings c a d w h l n) get_mean_speed) as [v|e];
    [|exact Hv]. cbn [mbind result_bind].
  pose proof (call_get_spent_calories_fails c a d w h l n Hc) as Hcal.
  destruct (call c (readings c a d w h l n) get_spent_calories) as [cal|e];
    [|exact Hcal]. cbn [mbind result_bind].
  apply (fails_within_weaken overflow); [apply overflow_arithmetic|].
  apply get_message_fails. reflexivity.
Qed.

(** X6.  On an instance a constructor built, the methods fail in
    arithmetic only.  [get_distance()] can raise nothing but
    [OverflowError]; [get_mean_speed()], and for running, walking and
    swimming [get_spent_calories()] and the report, nothing but
    [OverflowError] and [ZeroDivisionError]: no attribute a method reads is
    ever missing, whatever the readings. *)
Theorem methods_fail_in_arithmetic_only (c : cls) (a d w h l n : num) :
  let args := readings c a d w h l n in
  fails_within overflow (call c args get_distance) = true
  /\ fails_within arithmetic (call c args get_mean_speed) = true
  /\ (c <> Training ->
      fails_within arithmetic (call c args get_spent_calories) = true
      /\ fails_within arithmetic (call c args report) = true).
Proof.
  intros args. subst args. split; [|split].
  - rewrite call_get_distance. apply rdiv_M_IN_KM_fails, rmul_fails; auto.
  - apply call_get_mean_speed_fails.
  - intros Hc. split.
    + apply call_get_spent_calories_fails, Hc.
    + apply call_report_fails, Hc.
Qed.

(** ** The base class *)

(** X7.  A base-class instance has no report: whatever the arguments,
    [show_training_info] followed by [get_message] raises, so [main] prints
    nothing for it; when its mean speed is computed, the error is the
    [NotImplementedError] of [get_spent_calories]. *)
Theorem base_class_has_no_report (args : list num) :
  (exists e, call Training args report = Raise e)
  /\ ((exists v, call Training args get_mean_speed = Ok v) ->
      call Training args report = Raise NotImplementedError)
  /\ call Training args get_spent_calories
     = (_ ← new Training args; Raise NotImplementedError).
Proof.
  destruct (new Training args) as [self|e] eqn:Hnew.
  - assert (exists a d w, args = [a; d; w]) as (a & d & w & ->).
    { clear -Hnew. do 4 (try destruct args as [|? args]);
        try discriminate Hnew; eauto. }
    assert (Hcal : call Training [a; d; w] get_spent_calories
                   = Raise NotImplementedError) by reflexivity.
    rewrite call_report, Hcal, new_Training.
    cbn [mbind result_bind duration attribute].
    destruct (call Training [a; d; w] get_distance) as [dist|e1] eqn:E;
      cbn [mbind result_bind];
      [|split; [eauto | split; [|reflexivity]]].
    + destruct (call Training [a; d; w] get_mean_speed) as [v|e2];
        cbn [mbind result_bind]; (split; [eauto | split; [|reflexivity]]).
      * reflexivity.
      * intros [? [=]].
    + intros [v Hv]. exfalso. revert Hv.
      change (call Training [a; d; w] get_mean_speed)
        with (call Training (readings Training a d w d d d) get_mean_speed).
      rewrite mean_speed_divides. cbn [divided_distance readings].
      rewrite E. discriminate.
  - unfold call. rewrite Hnew. cbn [mbind result_bind].
    split; [eauto | split; [intros [? [=]] | reflexivity]].
Qed.

(** ** The report and its line *)

Lemma rdiv_divisor_convertible (x : result num) (d v : num) :
  float_result x = true -> (x / Ok d)%py = Ok v -> convertible d.
Proof.
  destruct x as [[z|f]|]; cbn [float_result is_float]; intros Hx Hdiv;
    try discriminate.
  revert Hdiv. cbn [rdiv mbind result_bind]. rewrite py_truediv_of_float.
  unfold convertible. destruct (to_float d) as [fd|]; [eauto|discriminate].
Qed.

Lemma get_mean_speed_duration self d v :
  duration self = Some d -> returns get_mean_speed self = Ok v ->
  convertible d.
Proof.
  intros Hd. rewrite get_mean_speed_eq, Hd. cbn [attribute].
  destruct (class_of self); apply rdiv_divisor_convertible;
    first [apply get_distance_float | apply rdiv_float_result].
Qed.

(** X8.  Formatting never fails on a report that [show_training_info]
    produced: its distance, speed and calories are floats and its duration
    has already been divided by.  So the line is printed exactly when
    [show_training_info] returns, and otherwise the error is the one
    [show_training_info] raised. *)
Theorem report_line_follows (self : object) :
  (forall info, returns show_training_info self = Ok info ->
     exists line,
       returns InfoMessage.get_message info = Ok line
       /\ returns report self = Ok line)
  /\ (forall e, returns show_training_info self = Raise e ->
        returns report self = Raise e).
Proof.
  rewrite report_eq. split.
  - intros info Hinfo. rewrite Hinfo. cbn [mbind result_bind].
    enough (exists line, returns InfoMessage.get_message info = Ok line)
      as [line Hline] by (exists line; split; exact Hline).
    revert Hinfo. rewrite show_training_info_eq.
    destruct (duration self) as [d|] eqn:Hd; [|discriminate].
    cbn [attribute mbind result_bind].
    pose proof (get_distance_float self) as F1.
    pose proof (get_mean_speed_float self) as F2.
    pose proof (get_spent_calories_float self) as F3.
    pose proof (get_mean_speed_duration self d) as Hconv.
    destruct (returns get_distance self) as [[?|x]|]; try discriminate.
    destruct (returns get_mean_speed self) as [[?|y]|]; try discriminate.
    destruct (returns get_spent_calories self) as [[?|z]|]; try discriminate.
    cbn [mbind result_bind]. intros [= <-].
    apply get_message_defined, (Hconv _ Hd eq_refl).
  - intros e He. rewrite He. reflexivity.
Qed.

(** X9.  On a report that carries the default template, [get_message]
    returns exactly when each of the four numbers converts to a float
    (every float does; an [int] too large does not), and it can raise
    nothing but [OverflowError]. *)
Theorem get_message_defined_iff (info : InfoMessage.t) :
  InfoMessage.MESSAGE info = InfoMessage.MESSAGE_default ->
  ((exists line, returns InfoMessage.get_message info = Ok line)
   <-> convertible (InfoMessage.duration info)
       /\ convertible (InfoMessage.distance info)
       /\ convertible (InfoMessage.speed info)
       /\ convertible (InfoMessage.calories info))
  /\ fails_within overflow (returns InfoMessage.get_message info) = true.
Proof.
  intros HM. split; [|apply get_message_fails, HM].
  rewrite (get_message_default info HM). unfold format_f, convertible.
  destruct (to_float (InfoMessage.duration info)) as [f1|];
    cbn [mbind result_bind];
    [|split; [intros [? [=]] | intros ([? [=]] & _)]].
  destruct (to_float (InfoMessage.distance info)) as [f2|];
    cbn [mbind result_bind];
    [|split; [intros [? [=]] | intros (_ & [? [=]] & _)]].
  destruct (to_float (InfoMessage.speed info)) as [f3|];
    cbn [mbind result_bind];
    [|split; [intros [? [=]] | intros (_ & _ & [? [=]] & _)]].
  destruct (to_float (InfoMessage.calories info)) as [f4|];
    cbn [mbind result_bind];
    [|split; [intros [? [=]] | intros (_ & _ & _ & [? [=]])]].
  split; eauto 10.
Qed.

Lemma get_message_defined_iff_witness :
  (exists line,
     returns InfoMessage.get_message
       (InfoMessage.mk "Running" (PyInt 1) (PyFloat 9.75) (PyFloat 9.75)
                       (PyFloat 797.805)) = Ok line)
  /\ fails_within overflow
       (returns InfoMessage.get_message
          (InfoMessage.mk "Running" (PyInt (10 ^ 400)) (PyFloat 9.75)
                          (PyFloat 9.75) (PyFloat 797.805))) = true.
Proof.
  split.
  - apply (proj1 (get_message_defined_iff
                    (InfoMessage.mk "Running" (PyInt 1) (PyFloat 9.75)
                                    (PyFloat 9.75) (PyFloat 797.805))
                    eq_refl)).
    split_and!; eexists; reflexivity.
  - apply (proj2 (get_message_defined_iff
                    (InfoMessage.mk "Running" (PyInt (10 ^ 400)) (PyFloat 9.75)
                                    (PyFloat 9.75) (PyFloat 797.805))
                    eq_refl)).
Defined.

(** ** Running, walking and swimming calories *)


(** A float that compares equal to zero stays zero when divided by 100. *)
Lemma zero_div_100 (f : float) :
  PrimFloat.is_zero f = true ->
  PrimFloat.is_zero (PrimFloat.div f 100) = true.
Proof.
  unfold PrimFloat.is_zero.
  rewrite !FloatAxioms.eqb_spec, FloatAxioms.div_spec.
  change (Prim2SF PrimFloat.zero) with (S754_zero false).
  change (Prim2SF 100) with (S754_finite false 7036874417766400 (-46)).
  destruct (Prim2SF f) as [s|s| |s m e]; cbn; try discriminate.
  - reflexivity.
  - destruct s; discriminate.
  - destruct s; discriminate.
Qed.

Lemma height_zero (h : num) :
  eq0 h ->
  exists q, (Ok h / Ok CM_IN_M)%py = Ok (PyFloat q)
            /\ PrimFloat.is_zero q = true.
Proof.
  destruct h as [z|f]; cbn [eq0].
  - intros ->. exists 0%float. split; reflexivity.
  - intros Hz. exists (PrimFloat.div f 100). split.
    + cbn [rdiv mbind result_bind].
      apply (py_truediv_l f CM_IN_M 100); reflexivity.
    + apply zero_div_100, Hz.
Qed.

(** C6.  Walking's [get_spent_calories()] is
    [(0.035 * weight + (mean_speed * 0.278) ** 2 / (height / 100)
      * 0.029 * weight) * (duration * 60)], evaluated from left to right in
    floats: with the mean speed [v], the weight as the float [fw], the
    square [sq] that [**] returns, [height / 100] a float [q] other than
    zero and [duration * 60] as the float [fm], the calories are
    [(0.035 * fw + sq / q * 0.029 * fw) * fm].  For the script's walking
    package that is [(0.035 * 75 + sq / 1.8 * 0.029 * 75) * 60], where [sq]
    is what the C library returns for [pow(5.85 * 0.278, 2.0)]. *)
Theorem walking_calories_formula (a d w h : num) :
  let calories := call SportsWalking [a; d; w; h] get_spent_calories in
  calories
  = ((Ok (PyFloat 0.035) * Ok w
      + (rpow2 (call SportsWalking [a; d; w; h] get_mean_speed
                * Ok (PyFloat 0.278))
         / (Ok h / Ok (PyInt 100)))
        * Ok (PyFloat 0.029) * Ok w)
     * (Ok d * Ok (PyInt 60)))%py
  /\ (forall v fw sq q fm : float,
        call SportsWalking [a; d; w; h] get_mean_speed = Ok (PyFloat v) ->
        to_float w = Ok fw ->
        float_pow2 (PrimFloat.mul v 0.278) = Ok sq ->
        (Ok h / Ok (PyInt 100))%py = Ok (PyFloat q) ->
        PrimFloat.is_zero q = false ->
        (Ok d * Ok (PyInt 60))%py ≫= to_float = Ok fm ->
        calories
        = Ok (PyFloat ((0.035 * fw + sq / q * 0.029 * fw) * fm)%float))
  /\ (forall sq : float,
        libm_pow (5.85 * 0.278)%float 2 = (sq, false) ->
        PrimFloat.is_infinity sq = false ->
        call SportsWalking [PyInt 9000; PyInt 1; PyInt 75; PyInt 180]
             get_spent_calories
        = Ok (PyFloat ((0.035 * 75 + sq / 1.8 * 0.029 * 75) * 60)%float)).
Proof.
  assert (closed : forall a d w h (v fw sq q fm : float),
            call SportsWalking [a; d; w; h] get_mean_speed = Ok (PyFloat v) ->
            to_float w = Ok fw ->
            float_pow2 (PrimFloat.mul v 0.278) = Ok sq ->
            (Ok h / Ok (PyInt 100))%py = Ok (PyFloat q) ->
            PrimFloat.is_zero q = false ->
            (Ok d * Ok (PyInt 60))%py ≫= to_float = Ok fm ->
            call SportsWalking [a; d; w; h] get_spent_calories
            = Ok (PyFloat ((0.035 * fw + sq / q * 0.029 * fw) * fm)%float)).
  { clear. intros a d w h v fw sq q fm Hv Hw Hsq Hq Hz Hm.
    rewrite call_get_spent_calories_SportsWalking, Hv.
    unfold CM_IN_M, MIN_IN_H. rewrite Hq.
    cbn [rmul radd rdiv rpow2 mbind result_bind].
    unfold CALORIES_WEIGHT_MULTIPLIER.
    rewrite (py_mul_l 0.035 w fw Hw). cbn [mbind result_bind].
    rewrite (py_mul_l v KMH_IN_MSEC 0.278) by reflexivity.
    cbn [mbind result_bind py_pow2]. rewrite Hsq. cbn [mbind result_bind].
    rewrite py_truediv_of_float. cbn [to_float mbind result_bind].
    rewrite Hz. cbn [mbind result_bind].
    rewrite (py_mul_l _ CALORIES_SPEED_HEIGHT_MULTIPLIER 0.029)
      by reflexivity.
    cbn [mbind result_bind].
    rewrite (py_mul_l _ w fw Hw). cbn [mbind result_bind].
    rewrite py_add_of_float. cbn [to_float mbind result_bind].
    cbn [rmul mbind result_bind] in Hm.
    destruct (py_mul d (PyInt 60)) as [m|]; [|discriminate].
    cbn [mbind result_bind] in Hm |- *.
    rewrite (py_mul_l _ m fm Hm). reflexivity. }
  intros calories. subst calories. split; [|split].
  - apply call_get_spent_calories_SportsWalking.
  - apply closed.
  - intros sq Hpow Hfin.
    apply (closed _ _ _ _ 5.85%float 75%float sq 1.8%float 60%float);
      try (vm_compute; reflexivity).
    unfold float_pow2.
    change (PrimFloat.is_nan (5.85 * 0.278)) with false.
    change (PrimFloat.is_infinity (5.85 * 0.278)) with false.
    change (PrimFloat.is_zero (5.85 * 0.278)) with false.
    change (PrimFloat.ltb (5.85 * 0.278) 0) with false.
    cbv iota.
    change (PrimFloat.eqb (5.85 * 0.278) 1) with false.
    cbv iota. rewrite Hpow, Hfin. reflexivity.
Qed.

(** X11.  Walking's [get_spent_calories()] divides by [height / 100].
    Once the weight term, the mean speed and its square are computed, a
    height equal to zero raises [ZeroDivisionError]; more exactly the
    calories are returned when [height / 100] is a float other than zero
    and [duration * 60] converts, and [ZeroDivisionError] is raised when
    [height / 100] is zero. *)
Theorem walking_calories_need_height (a d w h : num) (v sq : float) :
  call SportsWalking [a; d; w; h] get_mean_speed = Ok (PyFloat v) ->
  convertible w ->
  py_pow2 (PyFloat (PrimFloat.mul v 0.278)) = Ok (PyFloat sq) ->
  let calories := call SportsWalking [a; d; w; h] get_spent_calories in
  (eq0 h -> calories = Raise ZeroDivisionError)
  /\ (forall q, (Ok h / Ok CM_IN_M)%py = Ok (PyFloat q) ->
        if PrimFloat.is_zero q then calories = Raise ZeroDivisionError
        else (exists f, (Ok d * Ok MIN_IN_H)%py ≫= to_float = Ok f) ->
             exists c, calories = Ok (PyFloat c)).
Proof.
  intros Hv [fw Hw] Hsq calories. subst calories.
  rewrite call_get_spent_calories_SportsWalking, Hv.
  assert (Hq : forall q, (Ok h / Ok CM_IN_M)%py = Ok (PyFloat q) ->
            if PrimFloat.is_zero q
            then ((Ok CALORIES_WEIGHT_MULTIPLIER * Ok w
                   + rpow2 (Ok (PyFloat v) * Ok KMH_IN_MSEC)
                     / (Ok h / Ok CM_IN_M)
                     * Ok CALORIES_SPEED_HEIGHT_MULTIPLIER * Ok w)
                  * (Ok d * Ok MIN_IN_H))%py = Raise ZeroDivisionError
            else (exists f, (Ok d * Ok MIN_IN_H)%py ≫= to_float = Ok f) ->
                 exists c,
                   ((Ok CALORIES_WEIGHT_MULTIPLIER * Ok w
                     + rpow2 (Ok (PyFloat v) * Ok KMH_IN_MSEC)
                       / (Ok h / Ok CM_IN_M)
                       * Ok CALORIES_SPEED_HEIGHT_MULTIPLIER * Ok w)
                    * (Ok d * Ok MIN_IN_H))%py = Ok (PyFloat c)).
  { intros q ->.
    cbn [rmul radd rdiv rpow2 mbind result_bind].
    unfold CALORIES_WEIGHT_MULTIPLIER.
    rewrite (py_mul_l 0.035 w fw Hw). cbn [mbind result_bind].
    rewrite (py_mul_l v KMH_IN_MSEC 0.278) by reflexivity.
    cbn [mbind result_bind]. rewrite Hsq. cbn [mbind result_bind].
    rewrite py_truediv_of_float. cbn [to_float mbind result_bind].
    destruct (PrimFloat.is_zero q); [reflexivity|].
    intros [fm Hm]. cbn [mbind result_bind].
    rewrite (py_mul_l _ CALORIES_SPEED_HEIGHT_MULTIPLIER 0.029)
      by reflexivity.
    cbn [mbind result_bind].
    rewrite (py_mul_l _ w fw Hw). cbn [mbind result_bind].
    rewrite py_add_of_float. cbn [to_float mbind result_bind].
    cbn [rmul mbind result_bind] in Hm.
    destruct (py_mul d MIN_IN_H) as [m|]; [|discriminate].
    cbn [mbind result_bind] in Hm |- *.
    rewrite (py_mul_l _ m fm Hm). eexists. reflexivity. }
  split; [|exact Hq].
  intros Hh. destruct (height_zero h Hh) as (q & Eq & Hz).
  specialize (Hq q Eq). rewrite Hz in Hq. exact Hq.
Qed.

(** X12.  The number of strokes does not enter a swimming instance's
    calories: they are computed from the pool, the weight and the duration
    alone, so two instances that differ only in the action count burn the
    same. *)
Theorem swimming_calories_ignore_action (a a' d w l n : num) :
  call Swimming [a; d; w; l; n] get_spent_calories
  = call Swimming [a'; d; w; l; n] get_spent_calories
  /\ call Swimming [a; d; w; l; n] get_spent_calories
     = (((Ok l * Ok n / Ok M_IN_KM / Ok d) + Ok CALORIES_COTF_5)
        * Ok CALORIES_COTF_6 * Ok w * Ok d)%py.
Proof.
  assert (E : forall a,
            call Swimming [a; d; w; l; n] get_spent_calories
            = (((Ok l * Ok n / Ok M_IN_KM / Ok d) + Ok CALORIES_COTF_5)
               * Ok CALORIES_COTF_6 * Ok w * Ok d)%py).
  { intros a0. rewrite call_get_spent_calories_Swimming.
    change (call Swimming [a0; d; w; l; n] get_mean_speed)
      with (call Swimming (readings Swimming a0 d w d l n) get_mean_speed).
    rewrite mean_speed_divides. reflexivity. }
  split; [rewrite !E; reflexivity | apply E].
Qed.

(** ** Signs *)

Lemma nonneg_spec (f : float) : nonneg f = sf_nonneg (Prim2SF f).
Proof.
  unfold nonneg. rewrite FloatAxioms.leb_spec.
  change (Prim2SF 0) with (S754_zero false).
  destruct (Prim2SF f) as [s|[]| |[] m e]; reflexivity.
Qed.

Lemma shr_nonneg mrs e n :
  (0 <= shr_m mrs)%Z -> (0 <= shr_m (fst (shr mrs e n)))%Z.
Proof.
  intros H. destruct n as [|p|p]; cbn [shr fst]; try exact H.
  rewrite shr_m_iter by exact H. apply Z.shiftr_nonneg, H.
Qed.

Lemma shr_fexp_nonneg m e l :
  (0 <= m)%Z -> (0 <= shr_m (fst (shr_fexp prec emax m e l)))%Z.
Proof.
  intros H. unfold shr_fexp. apply shr_nonneg.
  destruct l as [|[]]; exact H.
Qed.

Lemma round_nearest_even_nonneg m l :
  (0 <= m)%Z -> (0 <= round_nearest_even m l)%Z.
Proof.
  intros H. unfold round_nearest_even.
  destruct l as [|[]]; try destruct (Z.even m); lia.
Qed.

(** Rounding keeps the sign: a mantissa that is not negative never rounds
    to a negative float or to a NaN. *)
Lemma binary_round_aux_nonneg (m e : Z) (l : location) :
  (0 <= m)%Z -> sf_nonneg (binary_round_aux prec emax false m e l) = true.
Proof.
  intros H. unfold binary_round_aux.
  pose proof (shr_fexp_nonneg m e l H) as H1.
  destruct (shr_fexp prec emax m e l) as [mrs' e']. cbn [fst] in H1.
  pose proof (round_nearest_even_nonneg _ (loc_of_shr_record mrs') H1) as H2.
  pose proof (shr_fexp_nonneg _ e' loc_Exact H2) as H3.
  destruct (shr_fexp prec emax _ e' loc_Exact) as [mrs'' e''].
  cbn [fst] in H3.
  destruct (shr_m mrs'') as [|p|p]; [reflexivity| |lia].
  destruct (e'' <=? emax - prec)%Z; reflexivity.
Qed.

Lemma mul_nonneg (x c : float) (mc : positive) (ec : Z) :
  Prim2SF c = S754_finite false mc ec ->
  nonneg x = true -> nonneg (PrimFloat.mul x c) = true.
Proof.
  intros Hc. rewrite !nonneg_spec, FloatAxioms.mul_spec, Hc.
  unfold SF64mul.
  destruct (Prim2SF x) as [s|[]| |[] m e]; cbn [sf_nonneg SFmul];
    try discriminate; intros _; try reflexivity.
  apply binary_round_aux_nonneg. lia.
Qed.

Lemma SFdiv_core_nonneg (m1 : positive) (e1 : Z) (m2 : positive) (e2 : Z) :
  (0 <= fst (fst (SFdiv_core_binary prec emax (Zpos m1) e1 (Zpos m2) e2)))%Z.
Proof.
  unfold SFdiv_core_binary.
  set (s := (e1 - e2 - _)%Z).
  set (m' := match s with
             | Zpos _ => Z.shiftl (Zpos m1) s
             | Z0 => Zpos m1
             | Zneg _ => Z0
             end).
  assert (Hm' : (0 <= m')%Z).
  { subst m'. destruct s; try lia. apply Z.shiftl_nonneg. lia. }
  pose proof (Z.div_pos m' (Zpos m2) Hm' ltac:(lia)) as Hq.
  unfold Z.div in Hq.
  destruct (Z.div_eucl m' (Zpos m2)) as [q r]. exact Hq.
Qed.

Lemma div_nonneg (x c : float) (mc : positive) (ec : Z) :
  Prim2SF c = S754_finite false mc ec ->
  nonneg x = true -> nonneg (PrimFloat.div x c) = true.
Proof.
  intros Hc. rewrite !nonneg_spec, FloatAxioms.div_spec, Hc.
  unfold SF64div.
  destruct (Prim2SF x) as [s|[]| |[] m e]; cbn [sf_nonneg SFdiv];
    try discriminate; intros _; try reflexivity.
  pose proof (SFdiv_core_nonneg m e mc ec) as Hq.
  destruct (SFdiv_core_binary prec emax (Zpos m) e (Zpos mc) ec)
    as [[q e'] l]. cbn [fst] in Hq.
  apply binary_round_aux_nonneg, Hq.
Qed.

(** The float of an [int] that is not negative is not negative. *)
Lemma float_of_int_nonneg (z : Z) (f : float) :
  (0 <= z)%Z -> float_of_int z = Ok f -> nonneg f = true.
Proof.
  intros Hz Hf. destruct (Z.eq_dec z 0) as [->|Hne].
  - injection Hf as <-. reflexivity.
  - destruct (float_of_int_nonzero z f Hne Hf) as (m & e & E).
    rewrite nonneg_spec, E. cbn. replace (z <? 0)%Z with false by lia.
    reflexivity.
Qed.

Lemma to_float_nonneg (n : num) (f : float) :
  ge0 n = true -> to_float n = Ok f -> nonneg f = true.
Proof.
  destruct n as [z|x]; cbn [ge0 to_float].
  - intros Hz. apply float_of_int_nonneg. lia.
  - intros H [= <-]. exact H.
Qed.

(** A positive number that is finite converts to a positive finite float. *)
Lemma to_float_positive_finite (n : num) (f : float) :
  gt0 n -> finite n = true -> to_float n = Ok f ->
  exists m e, Prim2SF f = S754_finite false m e.
Proof.
  destruct n as [z|x]; cbn [gt0 finite to_float].
  - intros Hz _ Hf.
    destruct (float_of_int_nonzero z f ltac:(lia) Hf) as (m & e & E).
    exists m, e. rewrite E. replace (z <? 0)%Z with false by lia.
    reflexivity.
  - intros Hpos Hfin [= <-]. revert Hpos Hfin.
    unfold PrimFloat.is_finite, PrimFloat.is_infinity, PrimFloat.is_nan.
    rewrite FloatAxioms.ltb_spec, !FloatAxioms.eqb_spec, FloatAxioms.abs_spec.
    change (Prim2SF 0) with (S754_zero false).
    change (Prim2SF infinity) with (S754_infinity false).
    destruct (Prim2SF x) as [s|[]| |[] m e]; cbn; try discriminate; eauto.
Qed.

Lemma call_get_distance_closed c a d w h l n :
  exists s ms es,
    Prim2SF s = S754_finite false ms es
    /\ call c (readings c a d w h l n) get_distance
       = (fa ← to_float a;
          Ok (PyFloat (PrimFloat.div (PrimFloat.mul fa s) 1000))).
Proof.
  assert (exists s ms es, LEN_STEP c = PyFloat s
                          /\ Prim2SF s = S754_finite false ms es)
    as (s & ms & es & Hs & Hpos)
    by (destruct c; do 3 eexists; split; reflexivity).
  exists s, ms, es. split; [exact Hpos|].
  rewrite call_get_distance, Hs. cbn [rmul rdiv mbind result_bind].
  rewrite py_mul_by_float. destruct (to_float a) as [fa|]; [|reflexivity].
  cbn [mbind result_bind].
  rewrite (py_truediv_l _ M_IN_KM 1000) by reflexivity. reflexivity.
Qed.

Lemma call_get_distance_nonneg c a d w h l n :
  ge0 a = true ->
  nonneg_result (call c (readings c a d w h l n) get_distance) = true.
Proof.
  intros Ha.
  destruct (call_get_distance_closed c a d w h l n)
    as (s & ms & es & Hs & ->).
  pose proof (to_float_nonneg a) as Hfa.
  destruct (to_float a) as [fa|]; [|reflexivity].
  cbn [mbind result_bind nonneg_result ge0].
  eapply div_nonneg; [reflexivity|].
  eapply mul_nonneg; [exact Hs|]. apply Hfa; [exact Ha | reflexivity].
Qed.

(** X13.  A workout whose action count is not negative has a distance that
    is not negative (and not a NaN), in every class; for the base class,
    running and walking, with a positive finite duration, the same holds for
    the mean speed. *)
Theorem distance_and_speed_not_negative (c : cls) (a d w h l n : num) :
  ge0 a = true ->
  let args := readings c a d w h l n in
  nonneg_result (call c args get_distance) = true
  /\ (c <> Swimming -> gt0 d -> finite d = true ->
      nonneg_result (call c args get_mean_speed) = true).
Proof.
  intros Ha args. subst args.
  pose proof (call_get_distance_nonneg c a d w h l n Ha) as Hdist.
  split; [exact Hdist|].
  intros Hc Hd Hfin. rewrite mean_speed_divides.
  assert (E : divided_distance c a d w h l n
              = call c (readings c a d w h l n) get_distance)
    by (destruct c; [reflexivity..|congruence]).
  rewrite E.
  assert (Hfloat : float_result
                     (call c (readings c a d w h l n) get_distance) = true)
    by (rewrite call_get_distance; apply rdiv_float_result).
  destruct (call c (readings c a d w h l n) get_distance) as [[z|x]|];
    try discriminate; [|reflexivity].
  cbn [rdiv mbind result_bind]. rewrite py_truediv_of_float.
  pose proof (to_float_positive_finite d) as Hpos.
  destruct (to_float d) as [fd|]; [|reflexivity].
  cbn [mbind result_bind].
  destruct (PrimFloat.is_zero fd); [reflexivity|].
  destruct (Hpos fd Hd Hfin eq_refl) as (m & e & Hfd).
  cbn [nonneg_result ge0]. eapply div_nonneg; [exact Hfd | exact Hdist].
Qed.

Lemma distance_and_speed_not_negative_witness :
  nonneg_result (call Running [PyInt 15000; PyInt 1; PyInt 75] get_mean_speed)
  = true.
Proof.
  pose (z := PyInt 0).
  refine (proj2 (distance_and_speed_not_negative Running
                   (PyInt 15000) (PyInt 1) (PyInt 75) z z z _) _ _ _).
  - reflexivity.
  - discriminate.
  - reflexivity.
  - reflexivity.
Defined.

(** ** The shape of the line *)

Lemma all_digits_string_of_uint (u : Decimal.uint) :
  all_digits (NilEmpty.string_of_uint u) = true.
Proof. induction u; cbn [NilEmpty.string_of_uint all_digits]; auto. Qed.

Lemma all_digits_digits (z : Z) : all_digits (digits z) = true.
Proof. apply all_digits_string_of_uint. Qed.

Lemma digits_nonempty (z : Z) : digits z <> "".
Proof.
  unfold digits. destruct (Z.to_N z) as [|p]; [discriminate|].
  cbn [N.to_uint]. pose proof (DecimalPos.Unsigned.to_uint_nonnil p) as H.
  destruct (Pos.to_uint p); [congruence|discriminate..].
Qed.

Lemma pad_3_digits (k : Z) :
  (0 <= k < 1000)%Z ->
  String.length (pad 3 (digits k)) = 3%nat
  /\ all_digits (pad 3 (digits k)) = true.
Proof.
  intros Hk.
  assert (Hall : forallb
            (fun i => let s := pad 3 (digits (Z.of_nat i)) in
                      Nat.eqb (String.length s) 3 && all_digits s)
            (seq 0 1000) = true) by (vm_compute; reflexivity).
  rewrite forallb_forall in Hall.
  specialize (Hall (Z.to_nat k)).
  rewrite Z2Nat.id in Hall by lia. cbn zeta in Hall.
  assert (Hin : In (Z.to_nat k) (seq 0 1000)) by (apply in_seq; lia).
  apply Hall, andb_prop in Hin. destruct Hin as [H1 H2].
  split; [apply Nat.eqb_eq, H1 | exact H2].
Qed.

Lemma fixed_digits_3 (n : Z) :
  exists whole fraction,
    fixed_digits 3 n = whole ++ "." ++ fraction
    /\ whole <> "" /\ all_digits whole = true
    /\ all_digits fraction = true /\ String.length fraction = 3%nat.
Proof.
  unfold fixed_digits. change (10 ^ Z.of_nat 3)%Z with 1000%Z.
  destruct (pad_3_digits (n mod 1000)) as [Hlen Hall];
    [apply Z.mod_pos_bound; lia|].
  exists (digits (n / 1000)), (pad 3 (digits (n mod 1000))).
  split_and!; [reflexivity | apply digits_nonempty | apply all_digits_digits
               | exact Hall | exact Hlen].
Qed.

Lemma is_finite_spec (f : float) :
  PrimFloat.is_finite f = true ->
  match Prim2SF f with
  | S754_zero _ | S754_finite _ _ _ => True
  | _ => False
  end.
Proof.
  unfold PrimFloat.is_finite, PrimFloat.is_infinity, PrimFloat.is_nan.
  rewrite !FloatAxioms.eqb_spec, FloatAxioms.abs_spec.
  change (Prim2SF infinity) with (S754_infinity false).
  destruct (Prim2SF f) as [s|[]| |s m e]; cbn; try discriminate; trivial.
Qed.

Lemma fixed_3_shape (f : float) :
  PrimFloat.is_finite f = true -> three_decimals (fixed 3 f).
Proof.
  intros Hf. apply is_finite_spec in Hf. unfold fixed, three_decimals.
  destruct (Prim2SF f) as [s|s| |s m e]; try contradiction.
  - destruct (fixed_digits_3 0) as (wh & fr & -> & H).
    exists s, wh, fr. split; [reflexivity | exact H].
  - cbn zeta.
    destruct (fixed_digits_3
                (if (0 <=? e)%Z then Zpos m * 10 ^ Z.of_nat 3 * 2 ^ e
                 else round_half_even (Zpos m * 10 ^ Z.of_nat 3) (2 ^ (- e)))%Z)
      as (wh & fr & -> & H).
    exists s, wh, fr. split; [reflexivity | exact H].
Qed.

(** The float of an [int] is finite. *)
Lemma float_of_int_finite (z : Z) (f : float) :
  float_of_int z = Ok f -> PrimFloat.is_finite f = true.
Proof.
  intros Hf. destruct (Z.eq_dec z 0) as [->|Hz].
  - injection Hf as <-. reflexivity.
  - destruct (float_of_int_nonzero z f Hz Hf) as (m & e & E).
    unfold PrimFloat.is_finite, PrimFloat.is_infinity, PrimFloat.is_nan.
    rewrite !FloatAxioms.eqb_spec, FloatAxioms.abs_spec, E.
    change (Prim2SF infinity) with (S754_infinity false).
    cbn. rewrite Z.compare_refl, Pos.compare_cont_refl.
    destruct (z <? 0)%Z; reflexivity.
Qed.

Lemma format_f_3_shape (n : num) (s : string) :
  finite n = true -> format_f 3 n = Ok s -> three_decimals s.
Proof.
  unfold format_f. destruct n as [z|f]; cbn [finite to_float].
  - intros _. destruct (float_of_int z) as [fz|] eqn:Hz; [|discriminate].
    cbn [mbind result_bind]. intros [= <-].
    apply fixed_3_shape, (float_of_int_finite z), Hz.
  - intros Hf [= <-]. apply fixed_3_shape, Hf.
Qed.

(** X14.  Every line [get_message] returns for finite numbers, on a report
    that carries the default template, has the one shape of that template:
    the five labels in order, the training type as it is, and each number
    as an optional minus sign, at least one digit, a point and exactly
    three digits. *)
Theorem get_message_shape (info : InfoMessage.t) (line : string) :
  InfoMessage.MESSAGE info = InfoMessage.MESSAGE_default ->
  returns InfoMessage.get_message info = Ok line ->
  finite (InfoMessage.duration info) = true ->
  finite (InfoMessage.distance info) = true ->
  finite (InfoMessage.speed info) = true ->
  finite (InfoMessage.calories info) = true ->
  exists duration distance speed calories,
    line = "Тип тренировки: " ++ InfoMessage.training_type info ++ "; "
           ++ "Длительность: " ++ duration ++ " ч.; "
           ++ "Дистанция: " ++ distance ++ " км; "
           ++ "Ср. скорость: " ++ speed ++ " км/ч; "
           ++ "Потрачено ккал: " ++ calories ++ "."
    /\ three_decimals duration /\ three_decimals distance
    /\ three_decimals speed /\ three_decimals calories.
Proof.
  intros HM. rewrite (get_message_default info HM).
  intros Hline H1 H2 H3 H4. revert Hline.
  pose proof (format_f_3_shape (InfoMessage.duration info)) as S1.
  pose proof (format_f_3_shape (InfoMessage.distance info)) as S2.
  pose proof (format_f_3_shape (InfoMessage.speed info)) as S3.
  pose proof (format_f_3_shape (InfoMessage.calories info)) as S4.
  destruct (format_f 3 (InfoMessage.duration info)) as [s1|]; [|discriminate].
  destruct (format_f 3 (InfoMessage.distance info)) as [s2|]; [|discriminate].
  destruct (format_f 3 (InfoMessage.speed info)) as [s3|]; [|discriminate].
  destruct (format_f 3 (InfoMessage.calories info)) as [s4|]; [|discriminate].
  cbn [mbind result_bind]. intros [= <-].
  exists s1, s2, s3, s4. split_and!; [reflexivity | auto..].
Qed.

Lemma get_message_shape_witness :
  exists line,
    returns InfoMessage.get_message
      (InfoMessage.mk "Running" (PyInt 1) (PyFloat 9.75) (PyFloat 9.75)
                      (PyFloat 797.805)) = Ok line
    /\ exists duration, three_decimals duration.
Proof.
  eexists. split; [vm_compute; reflexivity|].
  destruct (get_message_shape
              (InfoMessage.mk "Running" (PyInt 1) (PyFloat 9.75)
                              (PyFloat 9.75) (PyFloat 797.805))
              _ eq_refl ltac:(vm_compute; reflexivity)
              eq_refl eq_refl eq_refl eq_refl)
    as (dur & _ & _ & _ & _ & Hdur & _).
  exists dur. exact Hdur.
Defined.

End Libm.

(** * Worked examples

    The properties above hold whatever the C library computes.  The
    examples below are worked with [rounded_pow], whose [pow] is correctly
    rounded at the exponent 2. *)

(** The three lines the script prints. *)
Example script_prints :
  script_output rounded_pow =
  [ Ok "Тип тренировки: Swimming; Длительность: 1.000 ч.; Дистанция: 0.994 км; Ср. скорость: 1.000 км/ч; Потрачено ккал: 336.000.";
    Ok "Тип тренировки: Running; Длительность: 1.000 ч.; Дистанция: 9.750 км; Ср. скорость: 9.750 км/ч; Потрачено ккал: 797.805.";
    Ok "Тип тренировки: SportsWalking; Длительность: 1.000 ч.; Дистанция: 5.850 км; Ср. скорость: 5.850 км/ч; Потрачено ккал: 349.252." ].
Proof. vm_compute. reflexivity. Qed.

(** Walking's calories follow the last bit of the library's [pow]: for
    1844 steps a library that returns the float just below the rounded
    square gives 165.54963419965642 where the rounded square gives
    165.54963419965645. *)
Example walking_calories_last_bit :
  call SportsWalking [PyInt 1844; PyInt 1; PyInt 75; PyInt 180]
       (get_spent_calories rounded_pow)
    = Ok (PyFloat 165.54963419965645)
  /\ call SportsWalking [PyInt 1844; PyInt 1; PyInt 75; PyInt 180]
       (get_spent_calories
          (fun x y => (PrimFloat.next_down (PrimFloat.mul x x), false)))
    = Ok (PyFloat 165.54963419965642).
Proof. vm_compute. split; reflexivity. Qed.

(** A report with another template: a field that names no attribute is a
    [KeyError], and a template without fields is returned as it is. *)
Example get_message_other_templates :
  returns InfoMessage.get_message
    (InfoMessage.__init__ "Running" (PyInt 1) (PyFloat 9.75) (PyFloat 9.75)
                          (PyFloat 797.805) "{x}")
    = Raise (KeyError "x")
  /\ returns InfoMessage.get_message
       (InfoMessage.__init__ "Running" (PyInt 1) (PyFloat 9.75) (PyFloat 9.75)
                             (PyFloat 797.805) "no fields")
     = Ok "no fields"
  /\ returns InfoMessage.get_message
       (InfoMessage.__init__ "Running" (PyInt 1) (PyFloat 9.75) (PyFloat 9.75)
                             (PyFloat 797.805) "{training_type}: {speed:.1f}}")
     = Raise ValueError.
Proof. vm_compute. split_and!; reflexivity. Qed.

(** C1 as stated fails: the calories of that workout are 797.805, which
    is not 841.08 to the two decimals the figure is quoted with. *)
Lemma running_calories_not_841 :
  call Running [PyInt 15000; PyInt 1; PyInt 75]
       (get_spent_calories rounded_pow)
    = Ok (PyFloat 797.805)
  /\ approx 797.805 841.08 = false.
Proof. vm_compute. split; reflexivity. Qed.

Lemma mean_speed_is_distance_over_duration_witness :
  call Running [PyInt 15000; PyInt 2; PyInt 75] get_mean_speed
  = Ok (PyFloat (PrimFloat.div 9.75 2)).
Proof.
  pose (z := PyInt 0).
  apply (proj1 (proj2 (proj2 (proj2 (proj2
           (mean_speed_is_distance_over_duration
              (PyInt 15000) (PyInt 2) (PyInt 75) z z z)))))
           Running 9.75%float 2%float).
  - vm_compute. reflexivity.
  - reflexivity.
  - reflexivity.
Defined.

Lemma walking_calories_formula_witness :
  call SportsWalking [PyInt 9000; PyInt 1; PyInt 75; PyInt 180]
       (get_spent_calories rounded_pow)
  = Ok (PyFloat 349.2517475250001).
Proof.
  apply (proj2 (proj2 (walking_calories_formula rounded_pow
                         (PyInt 9000) (PyInt 1) (PyInt 75) (PyInt 180)))
           (PrimFloat.mul (PrimFloat.mul 5.85 0.278)
                          (PrimFloat.mul 5.85 0.278))).
  - reflexivity.
  - reflexivity.
Defined.

Lemma report_names_the_class_witness :
  let training :=
    mkobject Swimming (Some (PyInt 720)) (Some (PyInt 1)) (Some (PyInt 80))
             None (Some (PyInt 25)) (Some (PyInt 40)) in
  let info :=
    InfoMessage.mk "Swimming" (PyInt 1) (PyFloat 0.99359999999999993)
                   (PyFloat 1) (PyFloat 336) in
  read_package "SWM" [PyInt 720; PyInt 1; PyInt 80; PyInt 25; PyInt 40]
    = Ok training
  /\ returns (show_training_info rounded_pow) training = Ok info
  /\ InfoMessage.training_type info = "Swimming"
  /\ InfoMessage.training_type info <> "SWM".
Proof.
  intros training info.
  assert (Hpkg : read_package "SWM"
                   [PyInt 720; PyInt 1; PyInt 80; PyInt 25; PyInt 40]
                 = Ok training) by reflexivity.
  assert (Hinfo : returns (show_training_info rounded_pow) training = Ok info)
    by (vm_compute; reflexivity).
  destruct (report_names_the_class rounded_pow _ _ _ _ Hpkg Hinfo)
    as (_ & Hswm & _ & _ & Hcode & _).
  split_and!; [exact Hpkg | exact Hinfo | exact (Hswm eq_refl) | exact Hcode].
Defined.



Lemma methods_fail_in_arithmetic_only_witness :
  fails_within arithmetic
    (call SportsWalking [PyInt 9000; PyInt 0; PyInt 75; PyInt 180]
          (get_spent_calories rounded_pow)) = true
  /\ fails_within arithmetic
       (call SportsWalking [PyInt 9000; PyInt 0; PyInt 75; PyInt 180]
             (report rounded_pow))
     = true.
Proof.
  pose (z := PyInt 0).
  apply (proj2 (proj2 (methods_fail_in_arithmetic_only rounded_pow
                         SportsWalking
                         (PyInt 9000) (PyInt 0) (PyInt 75) (PyInt 180) z z))).
  discriminate.
Defined.

Lemma base_class_has_no_report_witness :
  call Training [PyInt 9000; PyInt 1; PyInt 75] (report rounded_pow)
  = Raise NotImplementedError.
Proof.
  apply (proj1 (proj2 (base_class_has_no_report rounded_pow
                         [PyInt 9000; PyInt 1; PyInt 75]))).
  exists (PyFloat 5.85). vm_compute. reflexivity.
Defined.

Lemma report_line_follows_witness :
  exists line,
    call Running [PyInt 15000; PyInt 1; PyInt 75] (report rounded_pow)
    = Ok line.
Proof.
  rewrite call_Running.
  set (self := mkobject Running (Some (PyInt 15000)) (Some (PyInt 1))
                        (Some (PyInt 75)) None None None).
  assert (Hinfo : returns (show_training_info rounded_pow) self
                  = Ok (InfoMessage.mk "Running" (PyInt 1) (PyFloat 9.75)
                          (PyFloat 9.75) (PyFloat 797.805)))
    by (vm_compute; reflexivity).
  destruct (proj1 (report_line_follows rounded_pow self) _ Hinfo)
    as (line & _ & Hline).
  exists line. exact Hline.
Defined.

Lemma walking_calories_need_height_witness :
  call SportsWalking [PyInt 9000; PyInt 1; PyInt 75; PyFloat (-0)]
       (get_spent_calories rounded_pow)
  = Raise ZeroDivisionError.
Proof.
  refine (proj1 (walking_calories_need_height rounded_pow
                   (PyInt 9000) (PyInt 1) (PyInt 75) (PyFloat (-0))
                   5.85 _ _ _ _) _).
  - vm_compute. reflexivity.
  - exists 75%float. reflexivity.
  - vm_compute. reflexivity.
  - reflexivity.
Defined.
